(** * PandaConnector: the Franka Desk session and control-token client

    A shallow embedding of [armer_panda/PandaConnector.py].  The connector
    object ([self]) is a record, the outside world (the HTTPS transport of
    [requests.Session.request] and the wall clock of [time.time]) is an
    explicit environment, and every method is a computation in a small
    state-and-exception monad over the pair of both.  The environment keeps
    a trace of the requests sent and the clock readings taken. *)

From Stdlib Require Import ZArith QArith String Ascii List Bool Lia Lqa.
From stdpp Require Import gmap strings.
Import ListNotations.

Local Open Scope string_scope.
Local Open Scope list_scope.

Set Warnings "-register-all".

(** ** Python values that travel as JSON *)

(** What [json.loads] returns and what [json=...] sends: [None], booleans,
    numbers, strings, lists and dicts.  Numbers are exact rationals (every
    [int] and every finite [float] is one); a dict is the list of its items
    in document order, keys distinct. *)
Inductive JSON : Type :=
| JNull
| JBool (b : bool)
| JNum (q : Q)
| JStr (s : string)
| JArr (items : list JSON)
| JObj (members : list (string * JSON)).

Fixpoint assoc {A : Type} (k : string) (d : list (string * A)) : option A :=
  match d with
  | [] => None
  | (k', v) :: d' => if String.eqb k k' then Some v else assoc k d'
  end.

Definition Qlt_bool (x y : Q) : bool := negb (Qle_bool y x).

Definition bool_as_Q (b : bool) : Q := if b then 1%Q else 0%Q.

(** Python's [==] on these values: [bool] is an [int], numbers compare by
    value, lists element by element, dicts by their items whatever the
    order. *)
Fixpoint py_eq (a b : JSON) {struct a} : bool :=
  match a, b with
  | JNull, JNull => true
  | JBool x, JBool y => Bool.eqb x y
  | JBool x, JNum q => Qeq_bool (bool_as_Q x) q
  | JNum p, JBool y => Qeq_bool p (bool_as_Q y)
  | JNum p, JNum q => Qeq_bool p q
  | JStr s, JStr t => String.eqb s t
  | JArr l, JArr l' =>
      (fix items (l l' : list JSON) {struct l} : bool :=
         match l, l' with
         | [], [] => true
         | x :: r, y :: r' => py_eq x y && items r r'
         | _, _ => false
         end) l l'
  | JObj d, JObj d' =>
      Nat.eqb (length d) (length d') &&
      (fix members (d : list (string * JSON)) {struct d} : bool :=
         match d with
         | [] => true
         | (k, v) :: r =>
             match assoc k d' with
             | Some v' => py_eq v v'
             | None => false
             end && members r
         end) d
  | _, _ => false
  end.

(** The operand of [start + timeout]: a number or a [bool]; anything else
    makes the addition raise [TypeError]. *)
Definition as_number (v : JSON) : option Q :=
  match v with
  | JNum q => Some q
  | JBool b => Some (bool_as_Q b)
  | _ => None
  end.

Inductive PyExn : Type :=
| AttributeError
| TypeError
| KeyError
| JSONDecodeError
| InvalidVersion.

(** [v[key]] for a string key: only a dict can be indexed that way. *)
Definition getitem (v : JSON) (key : string) : PyExn + JSON :=
  match v with
  | JObj d =>
      match assoc key d with
      | Some x => inr x
      | None => inl KeyError
      end
  | _ => inl TypeError
  end.

(** ** Strings: [strip] and [split] as [read_system_version] uses them *)

Definition dquote : ascii := Ascii.ascii_of_nat 34.

Fixpoint lstrip (c : ascii) (s : string) : string :=
  match s with
  | EmptyString => EmptyString
  | String a s' => if Ascii.eqb a c then lstrip c s' else s
  end.

Fixpoint rstrip (c : ascii) (s : string) : string :=
  match s with
  | EmptyString => EmptyString
  | String a s' =>
      match rstrip c s' with
      | EmptyString => if Ascii.eqb a c then EmptyString else String a EmptyString
      | r => String a r
      end
  end.

(** [s.strip(c)] for a one-character [c]. *)
Definition strip (c : ascii) (s : string) : string := rstrip c (lstrip c s).

(** [s.split(sep)[0]]: the text before the first occurrence of [sep], the
    whole of [s] when there is none. *)
Fixpoint split_first (sep s : string) : string :=
  if String.prefix sep s then EmptyString
  else match s with
       | EmptyString => EmptyString
       | String a s' => String a (split_first sep s')
       end.

(** The separator ['\\n'] of the source: a backslash followed by [n]. *)
Definition backslash_n : string := "\n".

(** ** The transport *)

Record Response : Type := mkResponse {
  status_code : Z;
  text : string
}.

Inductive TransportError : Type :=
| TimedOut
| ConnectionFailed.

Inductive Outcome : Type :=
| Responded (resp : Response)
| Failed (why : TransportError).

(** What [requests.Session()] carries into every request: the cookie jar
    and the headers the connector adds to the library's defaults. *)
Record Session : Type := mkSession {
  cookies : gmap string string;
  headers : gmap string JSON
}.

Definition new_session : Session := {| cookies := ∅; headers := ∅ |}.

(** One [session.request(reqtype, endpoint, json=json, verify=False,
    timeout=10)], with the cookies and headers of the session it is made on. *)
Record Request : Type := mkRequest {
  req_method : string;
  req_url : string;
  req_json : option JSON;
  req_verify : bool;
  req_timeout : Z;
  req_session : Session
}.

Inductive Event : Type :=
| Sent (r : Request) (o : Outcome)
| ClockRead (t : Q).

(** ** External collaborators *)

(** The server behind the transport and the wall clock: a state [Env] that
    answers a request and a clock reading, moving on each time.  Clock
    readings are exact rationals, in seconds; the rounding of [float] is
    left out. *)
Class Host : Type := {
  Env : Type;
  transport : Request → Env → Outcome * Env;
  wall_clock : Env → Q * Env
}.

(** [json.loads]: [None] stands for [JSONDecodeError]. *)
Class JsonLib : Type := {
  json_loads : string → option JSON
}.

(** [packaging.version]: [parse] ([None] stands for [InvalidVersion]) and
    [>=] on parsed versions. *)
Class VersionLib : Type := {
  Version : Type;
  version_parse : string → option Version;
  version_ge : Version → Version → bool
}.

(** ** The connector object *)

Record PandaConnector : Type := mkPandaConnector {
  robot_ip : string;
  username : string;
  password : string;
  session : option Session;
  connected : bool;
  version : option string;
  control_token_req : bool;
  control_token : JSON;
  control_token_id : JSON
}.

(** [PandaConnector(robot_ip, username, password)] *)
Definition init (ip user pass : string) : PandaConnector :=
  {| robot_ip := ip; username := user; password := pass;
     session := None; connected := false; version := None;
     control_token_req := false; control_token := JNull;
     control_token_id := JNull |}.

Definition set_session (x : option Session) (c : PandaConnector) : PandaConnector :=
  {| robot_ip := robot_ip c; username := username c; password := password c;
     session := x; connected := connected c; version := version c;
     control_token_req := control_token_req c; control_token := control_token c;
     control_token_id := control_token_id c |}.

Definition set_connected (x : bool) (c : PandaConnector) : PandaConnector :=
  {| robot_ip := robot_ip c; username := username c; password := password c;
     session := session c; connected := x; version := version c;
     control_token_req := control_token_req c; control_token := control_token c;
     control_token_id := control_token_id c |}.

Definition set_version (x : option string) (c : PandaConnector) : PandaConnector :=
  {| robot_ip := robot_ip c; username := username c; password := password c;
     session := session c; connected := connected c; version := x;
     control_token_req := control_token_req c; control_token := control_token c;
     control_token_id := control_token_id c |}.

Definition set_control_token_req (x : bool) (c : PandaConnector) : PandaConnector :=
  {| robot_ip := robot_ip c; username := username c; password := password c;
     session := session c; connected := connected c; version := version c;
     control_token_req := x; control_token := control_token c;
     control_token_id := control_token_id c |}.

Definition set_control_token (x : JSON) (c : PandaConnector) : PandaConnector :=
  {| robot_ip := robot_ip c; username := username c; password := password c;
     session := session c; connected := connected c; version := version c;
     control_token_req := control_token_req c; control_token := x;
     control_token_id := control_token_id c |}.

Definition set_control_token_id (x : JSON) (c : PandaConnector) : PandaConnector :=
  {| robot_ip := robot_ip c; username := username c; password := password c;
     session := session c; connected := connected c; version := version c;
     control_token_req := control_token_req c; control_token := control_token c;
     control_token_id := x |}.

(** ['https://{}<path>'.format(self.robot_ip)] *)
Definition endpoint (c : PandaConnector) (path : string) : string :=
  "https://" ++ robot_ip c ++ path.

(** ** The machine: the connector and the world around it *)

Section Connector.
Context {host : Host} {jsonlib : JsonLib} {versionlib : VersionLib}.

(** The environment and what has been observed of it, latest event first. *)
Record World : Type := mkWorld {
  env : Env;
  trace : list Event
}.

Record Machine : Type := mkMachine {
  self : PandaConnector;
  world : World
}.

(** A method either returns, raises with the object as it is at that
    point, or has not returned within the fuel of its loop. *)
Inductive Result (A : Type) : Type :=
| Done (a : A) (m : Machine)
| Raised (e : PyExn) (m : Machine)
| OutOfFuel.

Definition M (A : Type) : Type := Machine → Result A.

Definition ret {A : Type} (a : A) : M A := fun m => Done A a m.

Definition bind {A B : Type} (c : M A) (k : A → M B) : M B :=
  fun m =>
    match c m with
    | Done _ a m' => k a m'
    | Raised _ e m' => Raised B e m'
    | OutOfFuel _ => OutOfFuel B
    end.

Definition raise {A : Type} (e : PyExn) : M A := fun m => Raised A e m.

Definition get_self : M PandaConnector := fun m => Done _ (self m) m.

Definition update_self (f : PandaConnector → PandaConnector) : M unit :=
  fun m => Done _ tt {| self := f (self m); world := world m |}.

(** [time.time()] *)
Definition time_time : M Q :=
  fun m =>
    let '(t, e) := wall_clock (env (world m)) in
    Done _ t {| self := self m;
                world := {| env := e; trace := ClockRead t :: trace (world m) |} |}.
End Connector.

Arguments Done {host A} a m.
Arguments Raised {host A} e m.
Arguments OutOfFuel {host A}.

#[global] Instance M_ret {host : Host} : MRet M := @ret host.
#[global] Instance M_bind {host : Host} : MBind M :=
  fun A B (k : A → M B) (c : M A) => bind c k.

Section Methods.
Context {host : Host} {jsonlib : JsonLib} {versionlib : VersionLib}.

(** The body of the [try] in [__call]: [self.session.request(...)].  An
    unset session makes the attribute access raise, which the bare
    [except] takes like any transport failure. *)
Definition session_request (reqtype url : string) (json : option JSON)
    (m : Machine) : option Response * Machine :=
  match session (self m) with
  | None => (None, m)
  | Some sess =>
      let r := {| req_method := reqtype; req_url := url; req_json := json;
                  req_verify := false; req_timeout := 10;
                  req_session := sess |} in
      let '(o, e) := transport r (env (world m)) in
      let m' := {| self := self m;
                   world := {| env := e; trace := Sent r o :: trace (world m) |} |} in
      match o with
      | Responded resp => (Some resp, m')
      | Failed _ => (None, m')
      end
  end.

(** The loop of [__call]; [left] is [retries + 1 - attempts], the number of
    iterations the guard [attempts < retries + 1] still allows. *)
Fixpoint call_loop (left : nat) (reqtype url : string) (json : option JSON)
    (m : Machine) : (bool * option Response) * Machine :=
  match left with
  | O => ((false, None), m)
  | S left' =>
      match session_request reqtype url json m with
      | (Some resp, m') =>
          if (status_code resp =? 200)%Z then ((true, Some resp), m')
          else call_loop left' reqtype url json m'
      | (None, m') => call_loop left' reqtype url json m'
      end
  end.

(** [self.__call(endpoint, reqtype, json, retries)] *)
Definition __call (url : string) (reqtype : string) (json : option JSON)
    (retries : Z) : M (bool * option Response) :=
  fun m =>
    let '(r, m') := call_loop (Z.to_nat (retries + 1)) reqtype url json m in
    Done r m'.

(** [resp.text]; [resp] is [None] only when the call failed. *)
Definition resp_text (resp : option Response) : M string :=
  match resp with
  | Some r => ret (text r)
  | None => raise AttributeError
  end.

(** [json.loads(text)[key]] *)
Definition loads_item (body key : string) : M JSON :=
  match json_loads body with
  | None => raise JSONDecodeError
  | Some v =>
      match getitem v key with
      | inr x => ret x
      | inl e => raise e
      end
  end.

Definition login (retries : Z) : M bool :=
  c ← get_self;
  '(res, resp) ← __call (endpoint c "/admin/api/login") "POST"
      (Some (JObj [("login", JStr (username c)); ("password", JStr (password c))]))
      retries;
  if (res : bool) then
    body ← resp_text resp;
    c ← get_self;
    match session c with
    | None => raise AttributeError
    | Some sess =>
        update_self (set_session
          (Some {| cookies := <["authorization" := body]> (cookies sess);
                   headers := headers sess |}));;
        update_self (set_connected true);;
        ret res
    end
  else ret res.

Definition logout : M bool :=
  c ← get_self;
  '(res, _) ← __call (endpoint c "/admin/api/logout") "POST" None 5;
  if (res : bool) then
    update_self (set_connected false);;
    ret true
  else ret false.

Definition read_system_version : M bool :=
  c ← get_self;
  '(res, resp) ← __call (endpoint c "/admin/api/system-version") "GET" None 5;
  if (res : bool) then
    body ← resp_text resp;
    let line := split_first backslash_n (strip dquote body) in
    update_self (set_version (Some line));;
    match version_parse line with
    | None => raise InvalidVersion
    | Some v =>
        match version_parse "4.2.0" with
        | None => raise InvalidVersion
        | Some v0 =>
            if version_ge v v0 then
              update_self (set_control_token_req true);;
              ret res
            else ret res
        end
    end
  else ret res.

Definition connect (retries : Z) : M bool :=
  update_self (set_session (Some new_session));;
  ok ← login retries;
  if negb ok then ret false
  else
    ok ← read_system_version;
    if negb ok then ret false else ret true.

Definition is_control_token_active : M bool :=
  c ← get_self;
  '(res, resp) ← __call (endpoint c "/admin/api/control-token") "GET" None 5;
  if negb res then ret false
  else
    body ← resp_text resp;
    active_token ← loads_item body "activeToken";
    match active_token with
    | JNull => ret false
    | _ =>
        match getitem active_token "id" with
        | inl e => raise e
        | inr i =>
            c ← get_self;
            ret (py_eq i (control_token_id c))
        end
    end.

(** The three statements that store a granted token:
    [self.control_token = json.loads(resp.text)['token']],
    [self.control_token_id = json.loads(resp.text)['id']] and
    [self.session.headers.update({'X-Control-Token': self.control_token})]. *)
Definition store_token (resp : option Response) : M unit :=
  body ← resp_text resp;
  tok ← loads_item body "token";
  update_self (set_control_token tok);;
  body ← resp_text resp;
  i ← loads_item body "id";
  update_self (set_control_token_id i);;
  c ← get_self;
  match session c with
  | None => raise AttributeError
  | Some sess =>
      update_self (set_session
        (Some {| cookies := cookies sess;
                 headers := <["X-Control-Token" := control_token c]> (headers sess) |}))
  end.

(** The loop [while time.time() < start + timeout: ...] of the forced
    request, one iteration per unit of fuel.  The sum and the comparison
    are exact: the rounding of the [float] sum is left out, so the guard is
    the one of the source where rounding cannot turn it, as for a timeout
    that is no number or not above zero. *)
Fixpoint wait_for_control (fuel : nat) (start : Q) (timeout : JSON) : M bool :=
  match fuel with
  | O => fun _ => OutOfFuel
  | S fuel' =>
      t ← time_time;
      match as_number timeout with
      | None => raise TypeError
      | Some d =>
          if Qlt_bool t (start + d) then
            active ← is_control_token_active;
            if (active : bool) then ret true
            else wait_for_control fuel' start timeout
          else ret false
      end
  end.

Definition acquire_control_token (fuel : nat) (force : bool) : M bool :=
  c ← get_self;
  if force then
    '(res, resp) ← __call (endpoint c "/admin/api/safety") "GET" None 5;
    if negb res then ret false
    else
      body ← resp_text resp;
      timeout ← loads_item body "tokenForceTimeout";
      '(res, resp) ← __call (endpoint c "/admin/api/control-token/request?force")
          "POST" (Some (JObj [("requestedBy", JStr (username c))])) 5;
      if negb res then ret false
      else
        store_token resp;;
        start ← time_time;
        wait_for_control fuel start timeout
  else
    '(res, resp) ← __call (endpoint c "/admin/api/control-token/request")
        "POST" (Some (JObj [("requestedBy", JStr (username c))])) 5;
    if negb res then ret false
    else
      store_token resp;;
      is_control_token_active.

Definition can_control : M bool :=
  c ← get_self;
  if control_token_req c then
    active ← is_control_token_active;
    if (active : bool) then ret true else ret false
  else ret true.

Definition release_control_token : M bool :=
  c ← get_self;
  '(res, _) ← __call (endpoint c "/admin/api/control-token") "DELETE"
      (Some (JObj [("token", control_token c)])) 5;
  if (res : bool) then
    c ← get_self;
    (* [self.control_token == None]: a comparison, its value dropped *)
    let _ := py_eq (control_token c) JNull in
    ret true
  else ret false.

Definition enable_fci : M bool :=
  c ← get_self;
  '(res, _) ← __call (endpoint c "/admin/api/control-token/fci") "POST"
      (Some (JObj [("token", control_token c)])) 5;
  ret res.

Definition disable_fci : M bool :=
  c ← get_self;
  '(res, _) ← __call (endpoint c "/admin/api/control-token/fci") "DELETE"
      (Some (JObj [("token", control_token c)])) 5;
  ret res.

(** The [retries] argument of [open_brakes] is not passed on. *)
Definition open_brakes (retries : Z) : M bool :=
  c ← get_self;
  '(res, _) ← __call (endpoint c "/desk/api/robot/open-brakes") "POST" None 5;
  ret res.

Definition close_brakes : M bool :=
  c ← get_self;
  '(res, _) ← __call (endpoint c "/desk/api/robot/close-brakes") "POST" None 5;
  ret res.

Definition home_gripper : M bool :=
  c ← get_self;
  '(res, _) ← __call (endpoint c "/desk/api/gripper/homing") "POST" None 5;
  ret res.
End Methods.

(** ** The command surface *)

(** The operations of the connector other than [connect] and
    [read_system_version], as the handler node calls them. *)
Inductive Operation : Type :=
| OpLogin (retries : Z)
| OpLogout
| OpAcquireControlToken (force : bool)
| OpCanControl
| OpIsControlTokenActive
| OpReleaseControlToken
| OpEnableFci
| OpDisableFci
| OpOpenBrakes (retries : Z)
| OpCloseBrakes
| OpHomeGripper.

Section Specification.
Context {host : Host} {jsonlib : JsonLib} {versionlib : VersionLib}.

Definition invoke (fuel : nat) (op : Operation) : M bool :=
  match op with
  | OpLogin retries => login retries
  | OpLogout => logout
  | OpAcquireControlToken force => acquire_control_token fuel force
  | OpCanControl => can_control
  | OpIsControlTokenActive => is_control_token_active
  | OpReleaseControlToken => release_control_token
  | OpEnableFci => enable_fci
  | OpDisableFci => disable_fci
  | OpOpenBrakes retries => open_brakes retries
  | OpCloseBrakes => close_brakes
  | OpHomeGripper => home_gripper
  end.

(** The request [__call] sends on session [sess]. *)
Definition request_on (sess : Session) (reqtype url : string)
    (json : option JSON) : Request :=
  {| req_method := reqtype; req_url := url; req_json := json;
     req_verify := false; req_timeout := 10; req_session := sess |}.

(** An attempt that [__call] counts as failed: an exception of the
    transport or a status other than 200. *)
Definition fails (o : Outcome) : bool :=
  match o with
  | Responded resp => negb (status_code resp =? 200)%Z
  | Failed _ => true
  end.

(** The answers to [k] successive sends of [r], and the environment
    they leave. *)
Fixpoint outcomes (k : nat) (r : Request) (e : Env) : list Outcome :=
  match k with
  | O => []
  | S k' => let '(o, e') := transport r e in o :: outcomes k' r e'
  end.

Fixpoint env_after (k : nat) (r : Request) (e : Env) : Env :=
  match k with
  | O => e
  | S k' => env_after k' r (transport r e).2
  end.

(** The trace entries of those sends, latest first. *)
Definition sent_events (r : Request) (os : list Outcome) : list Event :=
  rev (map (Sent r) os).

Definition is_clock_read (ev : Event) : bool :=
  match ev with
  | ClockRead _ => true
  | Sent _ _ => false
  end.

Definition clock_reads (m : Machine) : nat :=
  length (filter is_clock_read (trace (world m))).

(** One move of the environment: a request answered or the clock read. *)
Inductive env_step : Env → Env → Prop :=
| step_transport (r : Request) (e : Env) : env_step e (transport r e).2
| step_clock (e : Env) : env_step e (wall_clock e).2.

(** Two readings in a row do not go backwards. *)
Definition clock_monotone : Prop :=
  ∀ e, ((wall_clock e).1 <= (wall_clock (wall_clock e).2).1)%Q.

(** The connector with a granted token stored: value, identifier and the
    header on the session. *)
Definition with_token (tok i : JSON) (sess : Session) (c : PandaConnector)
    : PandaConnector :=
  set_session
    (Some {| cookies := cookies sess;
             headers := <["X-Control-Token" := tok]> (headers sess) |})
    (set_control_token_id i (set_control_token tok c)).

(** The machine a computation leaves behind. *)
Definition after {A : Type} (c : M A) (m : Machine) : Machine :=
  match c m with
  | Done _ m' | Raised _ m' => m'
  | OutOfFuel => m
  end.

(** The machine after one [__call] with the default retries. *)
Definition called (path reqtype : string) (json : option JSON) (m : Machine)
    : Machine :=
  after (__call (endpoint (self m) path) reqtype json 5) m.

(** The path of the token request. *)
Definition token_request_path (force : bool) : string :=
  if force then "/admin/api/control-token/request?force"
  else "/admin/api/control-token/request".

(** Where [acquire_control_token] stands when it makes the token request:
    at once for a standard request, after a successful safety query that
    named a timeout for a forced one. *)
Definition reaches_token_request (force : bool) (m m1 : Machine) : Prop :=
  if force then
    ∃ resp v timeout,
      __call (endpoint (self m) "/admin/api/safety") "GET" None 5 m
        = Done (true, Some resp) m1
      ∧ json_loads (text resp) = Some v
      ∧ getitem v "tokenForceTimeout" = inr timeout
  else m1 = m.
End Specification.

(** ** More vocabulary for the connector *)

Section Observations.
Context {host : Host} {jsonlib : JsonLib} {versionlib : VersionLib}.

(** A trace entry of a request that [__call] counted as failed. *)
Definition attempt_failed (ev : Event) : bool :=
  match ev with
  | Sent _ o => fails o
  | ClockRead _ => false
  end.

(** A trace entry of request [r], whatever the answer. *)
Definition sent_as (r : Request) (ev : Event) : Prop :=
  ∃ o, ev = Sent r o.

(** The brake, gripper and FCI commands. *)
Definition is_arm_command (op : Operation) : bool :=
  match op with
  | OpEnableFci | OpDisableFci | OpOpenBrakes _ | OpCloseBrakes
  | OpHomeGripper => true
  | _ => false
  end.

(** What [invoke] is asked to do is a token acquisition. *)
Definition is_acquisition (op : Operation) : bool :=
  match op with
  | OpAcquireControlToken _ => true
  | _ => false
  end.
End Observations.

(** No character of [s] is [c]. *)
Fixpoint free_of (c : ascii) (s : string) : bool :=
  match s with
  | EmptyString => true
  | String a s' => negb (Ascii.eqb a c) && free_of c s'
  end.

Definition backslash : ascii := Ascii.ascii_of_nat 92.

(** ** The handler node *)

(** [rospy.loginfo], [rospy.logwarn] and [rospy.logerr] *)
Inductive LogLevel : Type :=
| LogInfo
| LogWarn
| LogErr.

Record LogLine : Type := mkLogLine {
  log_level : LogLevel;
  log_text : string
}.

(** [TriggerResponse(success, message)] and
    [SetBoolResponse(success, message)] *)
Record ServiceResponse : Type := mkServiceResponse {
  success : bool;
  message : string
}.

(** The private parameters [main] reads with [rospy.get_param]. *)
Record Params : Type := mkParams {
  param_robot_ip : string;
  param_username : string;
  param_password : string;
  connection_retries : Z;
  auto_acquire_control : bool;
  force_auto_acquire : bool;
  auto_open_brakes : bool;
  auto_home_gripper : bool;
  auto_enable_fci : bool
}.

(** The defaults of those [get_param] calls. *)
Definition default_params : Params :=
  {| param_robot_ip := "192.168.0.1";
     param_username := "franka";
     param_password :=
       "MjMsMTY0LDIzMSwxNjIsMTM4LDEyMCwxOTQsNTUsMTk2LDI5LDE5Myw5MCwxNzAsMTgsODIsMTEyLDE5NCw3MywxNjMsMTA0LDEsNTksMjAxLDk1LDI0OCwyMjAsMTcsMTgyLDQxLDI0MywzOSwxMTc=";
     connection_retries := 20;
     auto_acquire_control := false;
     force_auto_acquire := true;
     auto_open_brakes := false;
     auto_home_gripper := false;
     auto_enable_fci := false |}.

(** What the node needs of [rospy] besides logging: whether shutdown was
    requested and a sleep, both on the environment of the host. *)
Class Ros {host : Host} : Type := {
  is_shutdown : Env → bool * Env;
  sleep : Q → Env → Env
}.

Section Node.
Context {host : Host} {jsonlib : JsonLib} {versionlib : VersionLib} {ros : Ros}.

Record PandaHandlerNode : Type := mkPandaHandlerNode {
  panda_connector : option PandaConnector
}.

(** The node, the world and the lines logged, latest first. *)
Record NodeMachine : Type := mkNodeMachine {
  node : PandaHandlerNode;
  node_world : World;
  rosout : list LogLine
}.

Inductive NodeResult (A : Type) : Type :=
| Returned (a : A) (nm : NodeMachine)
| Threw (e : PyExn) (nm : NodeMachine)
| Unfinished.

Definition NodeM (A : Type) : Type := NodeMachine → NodeResult A.

Definition node_ret {A : Type} (a : A) : NodeM A := fun nm => Returned A a nm.

Definition node_bind {A B : Type} (c : NodeM A) (k : A → NodeM B) : NodeM B :=
  fun nm =>
    match c nm with
    | Returned _ a nm' => k a nm'
    | Threw _ e nm' => Threw B e nm'
    | Unfinished _ => Unfinished B
    end.

(** [self.panda_connector.<method>(...)]: the method runs on the connector
    of the node and in the world of the node; without a connector the
    attribute access raises. *)
Definition on_connector {A : Type} (c : M A) : NodeM A :=
  fun nm =>
    match panda_connector (node nm) with
    | None => Threw A AttributeError nm
    | Some conn =>
        match c {| self := conn; world := node_world nm |} with
        | Done a m' =>
            Returned A a
              {| node := {| panda_connector := Some (self m') |};
                 node_world := world m'; rosout := rosout nm |}
        | Raised e m' =>
            Threw A e
              {| node := {| panda_connector := Some (self m') |};
                 node_world := world m'; rosout := rosout nm |}
        | OutOfFuel => Unfinished A
        end
    end.

Definition log (lvl : LogLevel) (msg : string) : NodeM unit :=
  fun nm =>
    Returned unit tt
      {| node := node nm; node_world := node_world nm;
         rosout := {| log_level := lvl; log_text := msg |} :: rosout nm |}.

Definition get_node : NodeM PandaHandlerNode := fun nm => Returned _ (node nm) nm.

Definition set_panda_connector (c : PandaConnector) : NodeM unit :=
  fun nm =>
    Returned unit tt
      {| node := {| panda_connector := Some c |};
         node_world := node_world nm; rosout := rosout nm |}.

(** [rospy.is_shutdown()] *)
Definition rospy_is_shutdown : NodeM bool :=
  fun nm =>
    let '(down, e) := is_shutdown (env (node_world nm)) in
    Returned bool down
      {| node := node nm;
         node_world := {| env := e; trace := trace (node_world nm) |};
         rosout := rosout nm |}.

(** [rospy.sleep(seconds)] *)
Definition rospy_sleep (seconds : Q) : NodeM unit :=
  fun nm =>
    Returned unit tt
      {| node := node nm;
         node_world := {| env := sleep seconds (env (node_world nm));
                          trace := trace (node_world nm) |};
         rosout := rosout nm |}.

(** [self.panda_connector.calling]: [PandaConnector] has no attribute of
    that name, neither [__init__] nor a method assigns one, so the access
    raises. *)
Definition connector_calling : NodeM bool :=
  fun nm => Threw bool AttributeError nm.
End Node.

Arguments Returned {host A} a nm.
Arguments Threw {host A} e nm.
Arguments Unfinished {host A}.

#[global] Instance NodeM_ret {host : Host} : MRet NodeM := @node_ret host.
#[global] Instance NodeM_bind {host : Host} : MBind NodeM :=
  fun A B (k : A → NodeM B) (c : NodeM A) => node_bind c k.

Section Handlers.
Context {host : Host} {jsonlib : JsonLib} {versionlib : VersionLib} {ros : Ros}.

Definition respond (ok : bool) (msg : string) : NodeM ServiceResponse :=
  mret {| success := ok; message := msg |}.

(** The loop [while (self.panda_connector.calling): rospy.sleep(0.5)]. *)
Fixpoint wait_while_calling (fuel : nat) : NodeM unit :=
  match fuel with
  | O => fun _ => Unfinished
  | S fuel' =>
      calling ← connector_calling;
      if (calling : bool) then
        rospy_sleep 0.5;;
        wait_while_calling fuel'
      else mret tt
  end.

Definition on_shutdown (fuel : nat) : NodeM unit :=
  nd ← get_node;
  match panda_connector nd with
  | None => mret tt
  | Some _ =>
      wait_while_calling fuel;;
      closed ← on_connector close_brakes;
      (if negb closed then log LogErr "Unable to close brakes"
       else log LogInfo "Brakes Closed");;
      disabled ← on_connector disable_fci;
      (if negb disabled then log LogErr "Unable to disable FCI"
       else log LogInfo "FCI disabled");;
      active ← on_connector is_control_token_active;
      stuck ← (if (active : bool) then
                 released ← on_connector release_control_token;
                 mret (negb released)
               else mret false);
      (if (stuck : bool) then
         log LogErr
           "Unable to release control authority, forced override may be required"
       else log LogInfo "Control Authority Released");;
      on_connector logout;;
      mret tt
  end.

(** [req.data] is the [force] of the request. *)
Definition handle_acquire_control (fuel : nat) (data : bool) : NodeM ServiceResponse :=
  can ← on_connector can_control;
  if (can : bool) then respond true "Node already has control authority"
  else
    acquired ← on_connector (acquire_control_token fuel data);
    if negb acquired then
      respond false
        "Unable to acquire control authority, robot will not respond to commands"
    else
      log LogInfo "Acquired control authority";;
      respond true
        "Control authority acquired, enable open brakes and enable fci to start control".

Definition handle_release_control : NodeM ServiceResponse :=
  can ← on_connector can_control;
  if negb can then respond true "Robot does not have control authority"
  else
    c ← on_connector get_self;
    if negb (control_token_req c) then
      respond true "Robot doesn't require control authority"
    else
      released ← on_connector release_control_token;
      if negb released then
        respond false
          "Unable to release control authority, override may be required"
      else
        log LogInfo "Released control authority";;
        respond true
          "Control authority released, robot will not respond to commands".

Definition handle_enable_fci : NodeM ServiceResponse :=
  active ← on_connector is_control_token_active;
  if negb active then
    respond false "Node does not have control authority, cannot activate fci"
  else
    enabled ← on_connector enable_fci;
    if negb enabled then respond false "Unable to activate FCI"
    else
      log LogInfo "FCI Activated";;
      respond true "FCI Activated, ros communications enabled".

Definition handle_disable_fci : NodeM ServiceResponse :=
  active ← on_connector is_control_token_active;
  if negb active then
    respond false "Node does not have control authority, cannot disable fci"
  else
    disabled ← on_connector disable_fci;
    if negb disabled then respond false "Unable to disable FCI"
    else
      log LogInfo "FCI Disabled";;
      respond true "FCI Disabled, ros control prohibited".

Definition handle_open_brakes : NodeM ServiceResponse :=
  opened ← on_connector (open_brakes 5);
  if (opened : bool) then
    log LogWarn "WARNING: PANDA BRAKES OPENED, APPROACH ROBOT WITH CATION!";;
    respond true "API Reports Brakes opened. WARNING: APPROACH ROBOT WITH CATION"
  else respond false "Unable to open Brakes!".

Definition handle_close_brakes : NodeM ServiceResponse :=
  closed ← on_connector close_brakes;
  if (closed : bool) then
    log LogInfo "Brakes closed";;
    respond true "API Reports Brakes closed"
  else respond false "Unable to close Brakes!".

Definition handle_home_gripper : NodeM ServiceResponse :=
  homed ← on_connector home_gripper;
  if (homed : bool) then
    log LogInfo "Gripper homing sequence requested";;
    respond true "API Reports Gripper homed"
  else respond false "Unable to home Gripper".

(** The loop of [main] for [connection_retries < 0]:
    [while not rospy.is_shutdown(): ...]. *)
Fixpoint connect_until_shutdown (fuel : nat) : NodeM unit :=
  match fuel with
  | O => fun _ => Unfinished
  | S fuel' =>
      down ← rospy_is_shutdown;
      if (down : bool) then mret tt
      else
        ok ← on_connector (connect 0);
        if (ok : bool) then mret tt
        else
          log LogErr "Connection failed, retrying in 5 seconds";;
          rospy_sleep 5;;
          connect_until_shutdown fuel'
  end.

(** The part of [main] that acquires control authority; [False] stands for
    the [return] that gives up. *)
Definition startup_control (fuel : nat) (p : Params) : NodeM bool :=
  c ← on_connector get_self;
  if control_token_req c then
    log LogInfo
      "Panda arm requires single point of control, use control_authority/acquire and control_authority/release to control";;
    if auto_acquire_control p then
      acquired ← on_connector (acquire_control_token fuel false);
      if (acquired : bool) then
        log LogInfo "Control authority acquired";;
        mret true
      else if force_auto_acquire p then
        log LogWarn
          "Control authority not acquired! Attempting to force, please push physical button on the arm";;
        forced ← on_connector (acquire_control_token fuel true);
        if (forced : bool) then
          log LogInfo "Control authority acquired";;
          mret true
        else
          log LogErr "Unable to auto acquire control";;
          mret false
      else
        log LogErr "Unable to auto acquire control";;
        mret false
    else mret true
  else
    log LogInfo "Panda arm does not require single point of control";;
    mret true.

(** [main] from the parameters to [rospy.spin()]: [True] when the services
    are set up and the node spins, [False] when [main] returned before.
    The bookkeeping of [rospy] ([init_node], the registration of
    [on_shutdown] and of the services) has no part in it and is left out. *)
Definition main (fuel : nat) (p : Params) : NodeM bool :=
  set_panda_connector
    (init (param_robot_ip p) (param_username p) (param_password p));;
  log LogInfo ("Connecting to panda at " ++ param_robot_ip p);;
  (if (connection_retries p <? 0)%Z then connect_until_shutdown fuel
   else mret tt);;
  log LogInfo "Login successful";;
  controlled ← startup_control fuel p;
  if negb controlled then mret false
  else
    braked ← (if auto_open_brakes p then
                opened ← on_connector (open_brakes 5);
                if (opened : bool) then
                  log LogInfo "Brakes opened: WARNING: APPROACH ROBOT WITH CATION!";;
                  mret true
                else
                  log LogErr "Unable to auto open brakes, aborting";;
                  mret false
              else mret true);
    if negb braked then mret false
    else
      homed ← (if auto_home_gripper p then
                 done ← on_connector home_gripper;
                 if (done : bool) then
                   log LogInfo "Gripper homing complete";;
                   mret true
                 else
                   log LogErr "Unable to auto home gripper, aborting";;
                   mret false
               else mret true);
      if negb homed then mret false
      else
        enabled ← (if auto_enable_fci p then
                     ok ← on_connector enable_fci;
                     if (ok : bool) then
                       log LogInfo "FCI Enabled, ready for ros control";;
                       mret true
                     else
                       log LogErr "Unable to auto open brakes, aborting";;
                       mret false
                   else mret true);
        if negb enabled then mret false
        else
          log LogInfo "Enabling services";;
          mret true.
End Handlers.

(** ** Test doubles *)

(** A server that plays back a script of answers, one per request, and
    refuses connections once the script is over; its clock shows the number
    of requests and readings so far. *)
Record Scripted : Type := mkScripted {
  replies : list Outcome;
  ticks : Z
}.

Definition scripted_host : Host :=
  {| Env := Scripted;
     transport := fun _ e =>
       match replies e with
       | [] => (Failed ConnectionFailed, {| replies := []; ticks := ticks e + 1 |})
       | o :: rest => (o, {| replies := rest; ticks := ticks e + 1 |})
       end;
     wall_clock := fun e =>
       (inject_Z (ticks e), {| replies := replies e; ticks := ticks e + 1 |}) |}.

(** A decoder that knows the bodies of one test script. *)
Definition decoder (known : list (string * JSON)) : JsonLib :=
  {| json_loads := fun body => assoc body known |}.

(** Release-only versions, [N(.N)*], ordered as PEP 440 orders them:
    component by component, missing components counting as zero. *)
Definition digit_of (c : ascii) : option N :=
  let n := N_of_ascii c in
  if ((48 <=? n) && (n <=? 57))%N then Some (n - 48)%N else None.

Fixpoint parse_release (s : string) (cur : option N) (acc : list N)
    : option (list N) :=
  match s with
  | EmptyString =>
      match cur with
      | Some n => Some (rev (n :: acc))
      | None => None
      end
  | String c s' =>
      if Ascii.eqb c "."%char then
        match cur with
        | Some n => parse_release s' None (n :: acc)
        | None => None
        end
      else
        match digit_of c with
        | Some d => parse_release s' (Some (10 * default 0%N cur + d)%N) acc
        | None => None
        end
  end.

Fixpoint release_compare (a b : list N) {struct a} : comparison :=
  match a, b with
  | [], _ => if forallb (N.eqb 0) b then Eq else Lt
  | x :: a', [] => if forallb (N.eqb 0) a then Eq else Gt
  | x :: a', y :: b' =>
      match (x ?= y)%N with
      | Eq => release_compare a' b'
      | c => c
      end
  end.

Definition release_ge (a b : list N) : bool :=
  match release_compare a b with
  | Lt => false
  | _ => true
  end.

Definition release_versions : VersionLib :=
  {| Version := list N;
     version_parse := fun s => parse_release s None [];
     version_ge := release_ge |}.

(** ** Fixtures *)

(** [s] between double quotes. *)
Definition quoted (s : string) : string :=
  String dquote (s ++ String dquote EmptyString).

Definition ok (body : string) : Outcome :=
  Responded {| status_code := 200; text := body |}.

Definition refused (status : Z) : Outcome :=
  Responded {| status_code := status; text := "" |}.

Definition body_safety (seconds : string) : string :=
  "{" ++ quoted "tokenForceTimeout" ++ ": " ++ seconds ++ "}".

Definition body_grant : string :=
  "{" ++ quoted "token" ++ ": " ++ quoted "abc" ++ ", " ++ quoted "id" ++ ": 7}".

Definition body_no_holder : string :=
  "{" ++ quoted "activeToken" ++ ": null}".

Definition body_holder (i : string) : string :=
  "{" ++ quoted "activeToken" ++ ": {" ++ quoted "id" ++ ": " ++ i ++ "}}".

Definition fixture_bodies : list (string * JSON) :=
  [ (body_safety "5", JObj [("tokenForceTimeout", JNum 5)]);
    (body_safety "0", JObj [("tokenForceTimeout", JNum 0)]);
    (body_grant, JObj [("token", JStr "abc"); ("id", JNum 7)]);
    (body_no_holder, JObj [("activeToken", JNull)]);
    (body_holder "7", JObj [("activeToken", JObj [("id", JNum 7)])]);
    (body_holder "9", JObj [("activeToken", JObj [("id", JNum 9)])]) ].

Definition fixture_json : JsonLib := decoder fixture_bodies.

(** A connector for the arm at its default address. *)
Definition franka : PandaConnector := init "192.168.0.1" "franka" "hash".

(** [c] in front of a server that will play [script]. *)
Definition facing (script : list Outcome) (c : PandaConnector)
    : @Machine scripted_host :=
  @mkMachine scripted_host c
    (@mkWorld scripted_host {| replies := script; ticks := 0 |} []).

(** [franka] with a session open, as [connect] leaves it. *)
Definition franka_online : PandaConnector :=
  set_connected true (set_session (Some new_session) franka).

Definition ok_response (body : string) : Response :=
  {| status_code := 200; text := body |}.

(** [json={'requestedBy': 'franka'}] *)
Definition requested_by_franka : option JSON :=
  Some (JObj [("requestedBy", JStr "franka")]).

(** A parsed release, as [release_versions] holds it. *)
Definition release (components : list N) : @Version release_versions :=
  components.

Definition brakes_url : string :=
  "https://192.168.0.1/desk/api/robot/open-brakes".

(** [franka_online] holding token [abc] with identifier 7. *)
Definition franka_holding : PandaConnector :=
  with_token (JStr "abc") (JNum 7) new_session franka_online.

(** [franka_online] after a standard token request that [script] answers:
    the token stored, the world one request on. *)
Definition granted_on (script : list Outcome) : @Machine scripted_host :=
  @mkMachine scripted_host franka_holding
    (world (called "/admin/api/control-token/request" "POST"
              requested_by_franka (facing script franka_online))).

(** ** Fixtures for the handler node and the edge cases *)

Definition body_safety_text : string := body_safety (quoted "soon").

Definition body_token_only : string :=
  "{" ++ quoted "token" ++ ": " ++ quoted "xyz" ++ "}".

Definition body_empty_object : string := "{}".

Definition edge_bodies : list (string * JSON) :=
  [ (body_safety_text, JObj [("tokenForceTimeout", JStr "soon")]);
    (body_token_only, JObj [("token", JStr "xyz")]);
    (body_empty_object, JObj []) ].

Definition edge_json : JsonLib := decoder (edge_bodies ++ fixture_bodies).

(** A [rospy] that is never shut down and whose sleep moves the clock of
    the scripted server on. *)
Definition scripted_ros : @Ros scripted_host :=
  @Build_Ros scripted_host
    (fun e : Scripted => (false, e))
    (fun (seconds : Q) (e : Scripted) =>
       {| replies := replies e;
          ticks := ticks e + Z.max 1 (Qnum seconds / Z.pos (Qden seconds)) |}).

(** A node with connector [c] in front of a server that will play
    [script]. *)
Definition node_facing (script : list Outcome) (c : option PandaConnector)
    : @NodeMachine scripted_host :=
  @mkNodeMachine scripted_host (@mkPandaHandlerNode c)
    (@mkWorld scripted_host {| replies := script; ticks := 0 |} []) [].

(** [json={'login': 'franka', 'password': 'hash'}] *)
Definition login_as_franka : option JSON :=
  Some (JObj [("login", JStr "franka"); ("password", JStr "hash")]).

(** * Properties *)

Lemma release_ge_refl (v : list N) : release_ge v v = true.
Proof.
  unfold release_ge.
  assert (H : release_compare v v = Eq); [|by rewrite H].
  induction v as [|x v IH]; [done|].
  simpl. by rewrite N.compare_refl.
Qed.


Section Properties.
Context {host : Host} {jsonlib : JsonLib} {versionlib : VersionLib}.

(** ** The retrying call *)

Lemma session_request_some reqtype url json m sess :
  session (self m) = Some sess →
  session_request reqtype url json m =
    let r := request_on sess reqtype url json in
    let o := (transport r (env (world m))).1 in
    (match o with Responded resp => Some resp | Failed _ => None end,
     {| self := self m;
        world := {| env := (transport r (env (world m))).2;
                    trace := Sent r o :: trace (world m) |} |}).
Proof.
  intros Hs. unfold session_request, request_on. rewrite Hs. simpl.
  destruct (transport _ _) as [o e]. simpl. by destruct o.
Qed.

Lemma session_request_none reqtype url json m :
  session (self m) = None →
  session_request reqtype url json m = (None, m).
Proof. intros Hs. unfold session_request. by rewrite Hs. Qed.

(** A call never touches the object, moves the environment only by
    requests and reads no clock. *)
Lemma session_request_frame reqtype url json m :
  let m' := (session_request reqtype url json m).2 in
  self m' = self m
  ∧ rtc env_step (env (world m)) (env (world m'))
  ∧ clock_reads m' = clock_reads m.
Proof.
  destruct (session (self m)) as [sess|] eqn:Hs.
  - rewrite (session_request_some _ _ _ _ sess Hs). simpl.
    split; [done|]. split; [|done].
    apply rtc_once. apply step_transport.
  - rewrite session_request_none by done. simpl. done.
Qed.

Lemma call_loop_frame n reqtype url json m :
  let m' := (call_loop n reqtype url json m).2 in
  self m' = self m
  ∧ rtc env_step (env (world m)) (env (world m'))
  ∧ clock_reads m' = clock_reads m.
Proof.
  revert m. induction n as [|n IH]; intros m; simpl; [done|].
  pose proof (session_request_frame reqtype url json m) as (Hs & He & Hc).
  destruct (session_request reqtype url json m) as [[resp|] m1]; simpl in *.
  - destruct (status_code resp =? 200)%Z; simpl; [done|].
    destruct (IH m1) as (Hs' & He' & Hc').
    split; [congruence|]. split; [by etrans|congruence].
  - destruct (IH m1) as (Hs' & He' & Hc').
    split; [congruence|]. split; [by etrans|congruence].
Qed.

Lemma call_done url reqtype json retries m :
  ∃ r m', __call url reqtype json retries m = Done r m'
    ∧ self m' = self m
    ∧ rtc env_step (env (world m)) (env (world m'))
    ∧ clock_reads m' = clock_reads m.
Proof.
  unfold __call.
  pose proof (call_loop_frame (Z.to_nat (retries + 1)) reqtype url json m) as H.
  destruct (call_loop _ _ _ _ m) as [r m']. by exists r, m'.
Qed.

(** A call that reports success hands back a response, made on a session. *)
Lemma call_loop_success n reqtype url json m resp m' :
  call_loop n reqtype url json m = ((true, resp), m') →
  is_Some resp ∧ is_Some (session (self m)).
Proof.
  revert m. induction n as [|n IH]; intros m; simpl; [done|].
  destruct (session (self m)) as [sess|] eqn:Hs.
  - intros H. split; [|by eexists].
    destruct (session_request _ _ _ m) as [[r|] m1].
    + destruct (status_code r =? 200)%Z; [simplify_eq; by eexists|].
      by destruct (IH _ H).
    + by destruct (IH _ H).
  - rewrite session_request_none by done. intros H.
    destruct (IH _ H) as [? ?]. split; [done|]. by rewrite Hs in *.
Qed.

Lemma call_success url reqtype json retries m resp m' :
  __call url reqtype json retries m = Done (true, resp) m' →
  is_Some resp ∧ is_Some (session (self m')) ∧ self m' = self m.
Proof.
  unfold __call. intros H.
  pose proof (call_loop_frame (Z.to_nat (retries + 1)) reqtype url json m) as (Hs & _).
  destruct (call_loop _ _ _ _ m) as [r m1] eqn:Hc. simplify_eq.
  destruct (call_loop_success _ _ _ _ _ _ _ Hc) as [? ?].
  simpl in Hs. rewrite Hs. done.
Qed.

Lemma call_loop_all_fail n sess reqtype url json m :
  session (self m) = Some sess →
  let r := request_on sess reqtype url json in
  forallb fails (outcomes n r (env (world m))) = true →
  call_loop n reqtype url json m =
    ((false, None),
     {| self := self m;
        world := {| env := env_after n r (env (world m));
                    trace := sent_events r (outcomes n r (env (world m)))
                             ++ trace (world m) |} |}).
Proof.
  intros Hs r. revert m Hs. induction n as [|n IH]; intros m Hs; simpl.
  - intros _. by destruct m as [c [e t]].
  - rewrite (session_request_some _ _ _ _ sess Hs). cbv zeta. fold r.
    destruct (transport r (env (world m))) as [o e1] eqn:Ht. simpl.
    intros [Ho Hrest]%andb_prop.
    unfold sent_events. simpl. rewrite <- app_assoc. simpl.
    destruct o as [resp|why]; simpl in Ho.
    + apply negb_true_iff in Ho. rewrite Ho. by rewrite IH.
    + by rewrite IH.
Qed.

Lemma call_loop_first_success k n sess reqtype url json m resp e' :
  session (self m) = Some sess →
  let r := request_on sess reqtype url json in
  forallb fails (outcomes k r (env (world m))) = true →
  transport r (env_after k r (env (world m))) = (Responded resp, e') →
  status_code resp = 200%Z →
  call_loop (k + S n) reqtype url json m =
    ((true, Some resp),
     {| self := self m;
        world := {| env := e';
                    trace := Sent r (Responded resp)
                             :: sent_events r (outcomes k r (env (world m)))
                             ++ trace (world m) |} |}).
Proof.
  intros Hs r. revert m Hs. induction k as [|k IH]; intros m Hs; simpl.
  - intros _ Ht H200.
    rewrite (session_request_some _ _ _ _ sess Hs). cbv zeta. fold r.
    simpl in Ht. rewrite Ht. simpl. by rewrite H200.
  - rewrite (session_request_some _ _ _ _ sess Hs). cbv zeta. fold r.
    destruct (transport r (env (world m))) as [o e1] eqn:Ht1. simpl.
    intros [Ho Hrest]%andb_prop Ht H200.
    unfold sent_events. simpl. rewrite <- app_assoc. simpl.
    destruct o as [resp1|why]; simpl in Ho.
    + apply negb_true_iff in Ho. rewrite Ho. by rewrite IH.
    + by rewrite IH.
Qed.

Lemma outcomes_length k r e : length (outcomes k r e) = k.
Proof.
  revert e. induction k as [|k IH]; intros e; simpl; [done|].
  destruct (transport r e). simpl. by rewrite IH.
Qed.

(** C3: with [retries = N ≥ 0] on an open session, [__call] gives up after
    exactly [N + 1] attempts when each of them fails (an exception of the
    transport or a status other than 200), and it returns the first 200
    response at once: when the first [k ≤ N] attempts fail and the next is
    answered with 200, that response is returned after exactly [k + 1]
    attempts. *)
Theorem call_attempts_exact (N : Z) (m : Machine) (sess : Session)
    (reqtype url : string) (json : option JSON) :
  (0 <= N)%Z →
  session (self m) = Some sess →
  let r := request_on sess reqtype url json in
  let e := env (world m) in
  (forallb fails (outcomes (Z.to_nat (N + 1)) r e) = true →
     ∃ attempts,
       __call url reqtype json N m =
         Done (false, None)
           {| self := self m;
              world := {| env := env_after (Z.to_nat (N + 1)) r e;
                          trace := attempts ++ trace (world m) |} |}
       ∧ attempts = sent_events r (outcomes (Z.to_nat (N + 1)) r e)
       ∧ Z.of_nat (length attempts) = (N + 1)%Z)
  ∧ (∀ (k : nat) (resp : Response) (e' : Env),
       (Z.of_nat k <= N)%Z →
       forallb fails (outcomes k r e) = true →
       transport r (env_after k r e) = (Responded resp, e') →
       status_code resp = 200%Z →
       ∃ attempts,
         __call url reqtype json N m =
           Done (true, Some resp)
             {| self := self m;
                world := {| env := e'; trace := attempts ++ trace (world m) |} |}
         ∧ attempts = Sent r (Responded resp) :: sent_events r (outcomes k r e)
         ∧ length attempts = S k).
Proof.
  intros HN Hs r e. split.
  - intros Hall. eexists. split; [|split; [reflexivity|]].
    + unfold __call. by rewrite (call_loop_all_fail _ sess) by done.
    + unfold sent_events. rewrite length_rev, length_map, outcomes_length. lia.
  - intros k resp e' Hk Hall Ht H200. eexists. split; [|split; [reflexivity|]].
    + unfold __call.
      replace (Z.to_nat (N + 1)) with (k + S (Z.to_nat N - k))%nat by lia.
      by rewrite (call_loop_first_success _ _ sess _ _ _ _ resp e').
    + simpl. unfold sent_events.
      by rewrite length_rev, length_map, outcomes_length.
Qed.

(** ** Running the monad *)

Ltac run :=
  unfold mbind, M_bind, bind, mret, M_ret, ret, raise, get_self, update_self,
    resp_text, loads_item in *; simpl in *.

(** ** Session *)

(** C7: a [logout] whose request succeeds clears [connected] and changes
    nothing else of the object: the session, with its authorization cookie
    and its headers, stays as it was. *)
Theorem logout_clears_only_connected (m m1 : Machine) (resp : option Response) :
  __call (endpoint (self m) "/admin/api/logout") "POST" None 5 m
    = Done (true, resp) m1 →
  logout m = Done true {| self := set_connected false (self m); world := world m1 |}
  ∧ connected (set_connected false (self m)) = false
  ∧ session (set_connected false (self m)) = session (self m)
  ∧ set_connected (connected (self m)) (set_connected false (self m)) = self m.
Proof.
  intros Hcall.
  destruct (call_success _ _ _ _ _ _ _ Hcall) as (_ & _ & Hself).
  unfold logout. run. rewrite Hcall. simpl. rewrite Hself.
  repeat split. by destruct (self m).
Qed.

(** ** Control authority *)

(** C6: when the control-token query is answered with a body that decodes
    to a dict, [is_control_token_active] returns [False] if its
    [activeToken] is [None]; otherwise it returns whether the [id] of the
    active token equals (Python [==]) the stored [control_token_id], so it
    is [True] exactly when the two are equal. *)
Theorem is_control_token_active_compares_id (m m1 : Machine) (resp : Response)
    (body : JSON) (active : JSON) :
  __call (endpoint (self m) "/admin/api/control-token") "GET" None 5 m
    = Done (true, Some resp) m1 →
  json_loads (text resp) = Some body →
  getitem body "activeToken" = inr active →
  (active = JNull → is_control_token_active m = Done false m1)
  ∧ (∀ i, active ≠ JNull → getitem active "id" = inr i →
       is_control_token_active m = Done (py_eq i (control_token_id (self m))) m1
       ∧ (is_control_token_active m = Done true m1
          ↔ py_eq i (control_token_id (self m)) = true)).
Proof.
  intros Hcall Hbody Hact.
  destruct (call_success _ _ _ _ _ _ _ Hcall) as (_ & _ & Hself).
  assert (Hrun : ∀ i, active ≠ JNull → getitem active "id" = inr i →
    is_control_token_active m = Done (py_eq i (control_token_id (self m))) m1).
  { intros i Hnn Hid. unfold is_control_token_active. run.
    rewrite Hcall. simpl. rewrite Hbody, Hact. simpl.
    destruct active; try done; rewrite Hid; by rewrite Hself. }
  split.
  - intros ->. unfold is_control_token_active. run.
    rewrite Hcall. simpl. by rewrite Hbody, Hact.
  - intros i Hnn Hid. split; [by apply Hrun|].
    rewrite (Hrun i Hnn Hid). split; [by intros [= ->]|by intros ->].
Qed.

Lemma release_control_token_self (m : Machine) :
  ∃ b m', release_control_token m = Done b m' ∧ self m' = self m.
Proof.
  unfold release_control_token. run.
  destruct (call_done (endpoint (self m) "/admin/api/control-token") "DELETE"
    (Some (JObj [("token", control_token (self m))])) 5 m)
    as ([res resp] & m' & -> & Hs & _).
  simpl. destruct res; by eexists _, _.
Qed.

(** C10: when the token request of [acquire_control_token] fails, in the
    forced branch (after the safety query) as in the standard one, the
    method returns [False] and the object is as before the call: the same
    [control_token], [control_token_id] and session headers. *)
Theorem acquire_failure_keeps_token (fuel : nat) (force : bool)
    (m m1 m2 : Machine) (resp : option Response) :
  reaches_token_request force m m1 →
  __call (endpoint (self m) (token_request_path force)) "POST"
      (Some (JObj [("requestedBy", JStr (username (self m)))])) 5 m1
    = Done (false, resp) m2 →
  acquire_control_token fuel force m = Done false m2
  ∧ self m2 = self m
  ∧ control_token (self m2) = control_token (self m)
  ∧ control_token_id (self m2) = control_token_id (self m)
  ∧ session (self m2) = session (self m).
Proof.
  intros Hreach Hcall.
  assert (Hself : self m2 = self m).
  { destruct (call_done (endpoint (self m) (token_request_path force)) "POST"
      (Some (JObj [("requestedBy", JStr (username (self m)))])) 5 m1)
      as (r & m' & Hc & Hs & _).
    rewrite Hcall in Hc. simplify_eq. rewrite Hs.
    destruct force; simpl in Hreach; [|by subst].
    destruct Hreach as (r1 & v & t & Hsafe & _).
    by destruct (call_success _ _ _ _ _ _ _ Hsafe) as (_ & _ & ?). }
  split; [|by rewrite Hself].
  unfold acquire_control_token. run.
  destruct force; simpl in *.
  - destruct Hreach as (r1 & v & t & Hsafe & Hv & Ht).
    rewrite Hsafe. simpl. rewrite Hv, Ht. simpl. by rewrite Hcall.
  - subst m1. by rewrite Hcall.
Qed.

Lemma store_token_ok (m : Machine) (resp : Response) (body tok i : JSON)
    (sess : Session) :
  json_loads (text resp) = Some body →
  getitem body "token" = inr tok →
  getitem body "id" = inr i →
  session (self m) = Some sess →
  store_token (Some resp) m =
    Done tt {| self := with_token tok i sess (self m); world := world m |}.
Proof.
  intros Hbody Htok Hid Hs. unfold store_token. run.
  rewrite Hbody, Htok. simpl. rewrite Hid. simpl. by rewrite Hs.
Qed.

Lemma is_control_token_active_frame (m : Machine) :
  match is_control_token_active m with
  | Done _ m' | Raised _ m' =>
      self m' = self m
      ∧ rtc env_step (env (world m)) (env (world m'))
      ∧ clock_reads m' = clock_reads m
  | OutOfFuel => False
  end.
Proof.
  unfold is_control_token_active. run.
  destruct (call_done (endpoint (self m) "/admin/api/control-token") "GET" None 5 m)
    as ([res resp] & m' & -> & Hf).
  simpl. destruct res; simpl; [|done].
  destruct resp as [resp|]; simpl; [|done].
  destruct (json_loads (text resp)) as [v|]; simpl; [|done].
  destruct (getitem v "activeToken") as [e|a]; simpl; [done|].
  destruct a; simpl; try done;
    match goal with |- context [assoc ?k ?d] => destruct (assoc k d) end; done.
Qed.

(** C5: after a successful standard token request whose body carries a
    token and an id, [acquire_control_token(force=False)] stores both,
    puts the token on the session headers, and then is one
    [is_control_token_active] call on that state: it returns what that
    check returns, reads no clock and changes the object no further.  The
    result is therefore [False] when the control-token query fails or
    reports no holder, and otherwise whether the holder's [id] equals the
    [id] just stored: with another holder active the method returns
    [False] and the stored token, identifier and header stay in place. *)
Theorem acquire_standard_checks_once (fuel : nat) (m m1 : Machine)
    (resp : Response) (body tok i : JSON) :
  __call (endpoint (self m) "/admin/api/control-token/request") "POST"
      (Some (JObj [("requestedBy", JStr (username (self m)))])) 5 m
    = Done (true, Some resp) m1 →
  json_loads (text resp) = Some body →
  getitem body "token" = inr tok →
  getitem body "id" = inr i →
  ∃ sess held,
    session (self m) = Some sess
    ∧ held = {| self := with_token tok i sess (self m); world := world m1 |}
    ∧ control_token (self held) = tok
    ∧ control_token_id (self held) = i
    ∧ (∃ s, session (self held) = Some s
            ∧ headers s !! "X-Control-Token" = Some tok)
    ∧ acquire_control_token fuel false m = is_control_token_active held
    ∧ match acquire_control_token fuel false m with
      | Done _ m' | Raised _ m' =>
          self m' = self held ∧ clock_reads m' = clock_reads m
      | OutOfFuel => False
      end
    ∧ (∀ (r : option Response) (m2 : Machine),
         __call (endpoint (self held) "/admin/api/control-token") "GET" None 5 held
           = Done (false, r) m2 →
         acquire_control_token fuel false m = Done false m2
         ∧ self m2 = self held)
    ∧ (∀ (check : Response) (m2 : Machine) (answer active : JSON),
         __call (endpoint (self held) "/admin/api/control-token") "GET" None 5 held
           = Done (true, Some check) m2 →
         json_loads (text check) = Some answer →
         getitem answer "activeToken" = inr active →
         self m2 = self held
         ∧ (active = JNull →
            acquire_control_token fuel false m = Done false m2)
         ∧ (∀ holder, active ≠ JNull → getitem active "id" = inr holder →
              acquire_control_token fuel false m = Done (py_eq holder i) m2
              ∧ (py_eq holder i = false →
                 acquire_control_token fuel false m = Done false m2))).
Proof.
  intros Hcall Hbody Htok Hid.
  destruct (call_success _ _ _ _ _ _ _ Hcall) as (_ & [sess Hs] & Hself).
  destruct (call_done (endpoint (self m) "/admin/api/control-token/request") "POST"
      (Some (JObj [("requestedBy", JStr (username (self m)))])) 5 m)
      as (r & m' & Hc & _ & _ & Hclock).
  rewrite Hcall in Hc. simplify_eq.
  exists sess, {| self := with_token tok i sess (self m); world := world m' |}.
  set (held := {| self := with_token tok i sess (self m); world := world m' |}).
  assert (Hrun : acquire_control_token fuel false m = is_control_token_active held).
  { unfold acquire_control_token.
    unfold mbind, M_bind, bind, get_self. simpl. rewrite Hcall. simpl.
    rewrite (store_token_ok m' resp body tok i sess) by done.
    by rewrite Hself. }
  split; [by rewrite <- Hself|]. split; [done|].
  split; [done|]. split; [done|].
  split; [eexists; split; [done|]; simpl; by rewrite lookup_insert_eq|].
  split; [done|]. split.
  { rewrite Hrun.
    pose proof (is_control_token_active_frame held) as Hf.
    destruct (is_control_token_active held) as [b mf|e mf|]; [| |done];
      destruct Hf as (? & _ & Hcr); split; try done;
      rewrite Hcr; unfold clock_reads in *; simpl; done. }
  split.
  - intros r m2 Hcheck.
    destruct (call_done (endpoint (self held) "/admin/api/control-token") "GET"
                None 5 held) as (r0 & m0 & Hc & Hs2 & _).
    rewrite Hcheck in Hc. simplify_eq. split; [|done].
    rewrite Hrun. unfold is_control_token_active. run. by rewrite Hcheck.
  - intros check m2 answer active Hcheck Hanswer Hactive.
    destruct (call_success _ _ _ _ _ _ _ Hcheck) as (_ & _ & Hs2).
    split; [done|].
    assert (Hheld : control_token_id (self m2) = i) by (by rewrite Hs2).
    split.
    + intros ->. rewrite Hrun. unfold is_control_token_active. run.
      rewrite Hcheck. simpl. by rewrite Hanswer, Hactive.
    + intros holder Hnn Hholder.
      assert (Hres : acquire_control_token fuel false m = Done (py_eq holder i) m2).
      { rewrite Hrun. unfold is_control_token_active. run.
        rewrite Hcheck. simpl. rewrite Hanswer, Hactive. simpl.
        destruct active; try done; rewrite Hholder; by rewrite Hheld. }
      split; [done|]. intros Hother. by rewrite Hres, Hother.
Qed.

(** ** What a method may change of the object *)

(** [keeps_requirement c]: however [c] ends, [control_token_req] is what
    it was. *)
Definition keeps_requirement {A : Type} (c : M A) : Prop :=
  ∀ m, match c m with
       | Done _ m' | Raised _ m' =>
           control_token_req (self m') = control_token_req (self m)
       | OutOfFuel => True
       end.

Lemma keeps_ret {A : Type} (a : A) : keeps_requirement (mret a).
Proof. by intros m. Qed.

Lemma keeps_raise {A : Type} (e : PyExn) : keeps_requirement (@raise _ A e).
Proof. by intros m. Qed.

Lemma keeps_get_self : keeps_requirement get_self.
Proof. by intros m. Qed.

Lemma keeps_update (f : PandaConnector → PandaConnector) :
  (∀ c, control_token_req (f c) = control_token_req c) →
  keeps_requirement (update_self f).
Proof. intros Hf m. simpl. apply Hf. Qed.

Lemma keeps_time_time : keeps_requirement time_time.
Proof. intros m. unfold time_time. by destruct (wall_clock _). Qed.

Lemma keeps_call url reqtype json retries :
  keeps_requirement (__call url reqtype json retries).
Proof.
  intros m.
  destruct (call_done url reqtype json retries m) as (r & m' & -> & -> & _).
  done.
Qed.

Lemma keeps_bind {A B : Type} (c : M A) (k : A → M B) :
  keeps_requirement c → (∀ a, keeps_requirement (k a)) →
  keeps_requirement (c ≫= k).
Proof.
  intros Hc Hk m. unfold mbind, M_bind, bind.
  specialize (Hc m). destruct (c m) as [a m1|e m1|]; [|done|done].
  specialize (Hk a m1). destruct (k a m1); [congruence|congruence|done].
Qed.

Ltac keeps_step :=
  first
    [ apply keeps_ret | apply keeps_raise | apply keeps_get_self
    | apply keeps_time_time | apply keeps_call
    | apply keeps_update; done
    | apply keeps_bind; [|intros ?]
    | match goal with
      | |- keeps_requirement (match ?x with _ => _ end) => destruct x
      end ].

Ltac keeps := repeat keeps_step.

Lemma keeps_resp_text resp : keeps_requirement (resp_text resp).
Proof. unfold resp_text. keeps. Qed.

Lemma keeps_loads_item body key : keeps_requirement (loads_item body key).
Proof. unfold loads_item. keeps. Qed.

Lemma keeps_is_control_token_active : keeps_requirement is_control_token_active.
Proof.
  intros m. pose proof (is_control_token_active_frame m) as H.
  destruct (is_control_token_active m); [| |done]; destruct H as [-> _]; done.
Qed.

Lemma keeps_store_token resp : keeps_requirement (store_token resp).
Proof.
  unfold store_token.
  repeat first [apply keeps_resp_text | apply keeps_loads_item | keeps_step].
Qed.

Lemma keeps_wait_for_control fuel start timeout :
  keeps_requirement (wait_for_control fuel start timeout).
Proof.
  induction fuel as [|fuel IH]; simpl; [by intros m|].
  repeat first [apply keeps_is_control_token_active | apply IH | keeps_step].
Qed.

(** C8: no operation other than [read_system_version] (and [connect],
    which runs it) changes [control_token_req]: login, logout, token
    acquisition and release, the activity and authority checks, FCI
    enabling and disabling, the brakes and the gripper homing all leave it
    as it was, whether they return or raise. *)
Theorem requirement_fixed_by_operations (fuel : nat) (op : Operation) (m : Machine) :
  match invoke fuel op m with
  | Done _ m' | Raised _ m' =>
      control_token_req (self m') = control_token_req (self m)
  | OutOfFuel => True
  end.
Proof.
  revert m. change (keeps_requirement (invoke fuel op)).
  destruct op; simpl;
    unfold login, logout, acquire_control_token, can_control,
      release_control_token, enable_fci, disable_fci, open_brakes,
      close_brakes, home_gripper;
    repeat first
      [ apply keeps_is_control_token_active | apply keeps_store_token
      | apply keeps_wait_for_control | apply keeps_resp_text
      | apply keeps_loads_item | keeps_step ].
Qed.

(** C4, as the code has it: on a 200 answer whose first line (quotes
    stripped) parses as a version, [read_system_version] records that line
    and returns [True]; it sets [control_token_req] when the version is at
    least 4.2.0 and leaves it alone otherwise.  On a connector whose flag
    is still the [False] of the constructor the flag afterwards is exactly
    [version >= 4.2.0]; the version 4.2.0 itself sets it. *)
Theorem read_system_version_sets_requirement (m m1 : Machine) (resp : Response)
    (v v0 : Version) :
  __call (endpoint (self m) "/admin/api/system-version") "GET" None 5 m
    = Done (true, Some resp) m1 →
  version_parse (split_first backslash_n (strip dquote (text resp))) = Some v →
  version_parse "4.2.0" = Some v0 →
  ∃ m',
    read_system_version m = Done true m'
    ∧ world m' = world m1
    ∧ version (self m')
        = Some (split_first backslash_n (strip dquote (text resp)))
    ∧ control_token_req (self m')
        = control_token_req (self m) || version_ge v v0
    ∧ (control_token_req (self m) = false →
         control_token_req (self m') = version_ge v v0)
    ∧ (version_ge v0 v0 = true →
         split_first backslash_n (strip dquote (text resp)) = "4.2.0" →
         control_token_req (self m') = true).
Proof.
  intros Hcall Hv Hv0.
  destruct (call_success _ _ _ _ _ _ _ Hcall) as (_ & _ & Hself).
  unfold read_system_version. run. rewrite Hcall. simpl.
  rewrite Hv, Hv0. rewrite Hself.
  destruct (version_ge v v0) eqn:Hge; simpl; eexists; (split; [done|]); simpl.
  - rewrite orb_true_r. done.
  - rewrite orb_false_r. repeat split; try done.
    intros Hrefl Hline. rewrite Hline, Hv0 in Hv. simplify_eq. congruence.
Qed.

(** ** The forced wait *)

Lemma Qlt_bool_iff (x y : Q) : Qlt_bool x y = true ↔ (x < y)%Q.
Proof.
  unfold Qlt_bool. rewrite negb_true_iff.
  destruct (Qle_bool y x) eqn:H.
  - apply Qle_bool_iff in H. split; [done|]. intros ?. lra.
  - split; [|done]. intros _. apply Qnot_le_lt. intros Hle.
    apply Qle_bool_iff in Hle. congruence.
Qed.

Lemma time_time_reads (m : Machine) :
  time_time m =
    Done (wall_clock (env (world m))).1
      {| self := self m;
         world := {| env := (wall_clock (env (world m))).2;
                     trace := ClockRead (wall_clock (env (world m))).1
                              :: trace (world m) |} |}.
Proof. unfold time_time. by destruct (wall_clock _). Qed.

(** C9: when the safety query reports a timeout [d ≤ 0] and the forced
    request is granted, [acquire_control_token(force=True)] stores the
    token and its header, reads the clock twice and returns [False]: with
    a clock that does not run backwards the second reading is not below
    [start + d], so no request follows the token request and
    [is_control_token_active] is never asked, whatever the server would
    have answered. *)
Theorem forced_acquire_nonpositive_timeout (fuel : nat) (d : Q)
    (m m1 m2 : Machine) (safety granted : Response)
    (limits body timeout tok i : JSON) :
  clock_monotone →
  __call (endpoint (self m) "/admin/api/safety") "GET" None 5 m
    = Done (true, Some safety) m1 →
  json_loads (text safety) = Some limits →
  getitem limits "tokenForceTimeout" = inr timeout →
  as_number timeout = Some d →
  (d <= 0)%Q →
  __call (endpoint (self m) "/admin/api/control-token/request?force") "POST"
      (Some (JObj [("requestedBy", JStr (username (self m)))])) 5 m1
    = Done (true, Some granted) m2 →
  json_loads (text granted) = Some body →
  getitem body "token" = inr tok →
  getitem body "id" = inr i →
  (0 < fuel)%nat →
  ∃ sess,
    session (self m) = Some sess
    ∧ let start := wall_clock (env (world m2)) in
      let t := wall_clock start.2 in
      acquire_control_token fuel true m =
        Done false
          {| self := with_token tok i sess (self m);
             world := {| env := t.2;
                         trace := ClockRead t.1 :: ClockRead start.1
                                  :: trace (world m2) |} |}.
Proof.
  intros Hmono Hsafe Hlimits Htimeout Hnum Hd Hreq Hbody Htok Hid Hfuel.
  destruct (call_success _ _ _ _ _ _ _ Hsafe) as (_ & _ & Hself1).
  destruct (call_success _ _ _ _ _ _ _ Hreq) as (_ & [sess Hs] & Hself2).
  exists sess.
  split; [by rewrite <- Hself1, <- Hself2|]. cbv zeta.
  unfold acquire_control_token.
  unfold mbind, M_bind, bind, get_self. simpl. rewrite Hsafe. simpl.
  unfold resp_text, mret, M_ret, ret, loads_item. rewrite Hlimits, Htimeout. simpl.
  rewrite Hreq. simpl.
  rewrite (store_token_ok m2 granted body tok i sess) by done.
  rewrite time_time_reads.
  destruct fuel as [|fuel]; [lia|]. simpl.
  unfold mbind, M_bind, bind. rewrite time_time_reads. rewrite Hnum. simpl.
  pose proof (Hmono (env (world m2))) as Hlate.
  destruct (Qlt_bool _ _) eqn:Hlt.
  - apply Qlt_bool_iff in Hlt. lra.
  - rewrite Hself2, Hself1. done.
Qed.

(** ** More about the retrying call *)

Lemma call_loop_no_session n reqtype url json m :
  session (self m) = None →
  call_loop n reqtype url json m = ((false, None), m).
Proof.
  intros Hs. induction n as [|n IH]; simpl; [done|].
  by rewrite session_request_none.
Qed.

Lemma call_no_session url reqtype json retries m :
  session (self m) = None →
  __call url reqtype json retries m = Done (false, None) m.
Proof.
  intros Hs. unfold __call. by rewrite call_loop_no_session.
Qed.

(** X1: without a session (before [connect]) or with a negative
    [retries], [__call] sends nothing: it returns [(False, None)] and leaves
    the connector and the world as they are.  The [AttributeError] of the
    unset session never reaches the caller. *)
Theorem call_sends_nothing (url reqtype : string) (json : option JSON)
    (retries : Z) (m : Machine) :
  session (self m) = None ∨ (retries < 0)%Z →
  __call url reqtype json retries m = Done (false, None) m.
Proof.
  intros [Hs|Hneg]; [by apply call_no_session|].
  unfold __call. replace (Z.to_nat (retries + 1)) with 0%nat by lia.
  done.
Qed.

(** What the loop adds to the trace: at most [n] entries, each the same
    request on the session of the connector; on success the latest is the
    200 answer returned and all before it failed, on failure all failed. *)
Lemma call_loop_trace n reqtype url json m :
  ∃ evs,
    trace (world (call_loop n reqtype url json m).2) = evs ++ trace (world m)
    ∧ (length evs ≤ n)%nat
    ∧ Forall (λ ev, ∃ sess, session (self m) = Some sess
                ∧ sent_as (request_on sess reqtype url json) ev) evs
    ∧ match (call_loop n reqtype url json m).1 with
      | (true, Some resp) =>
          status_code resp = 200%Z
          ∧ ∃ r evs', evs = Sent r (Responded resp) :: evs'
                      ∧ forallb attempt_failed evs' = true
      | (false, None) => forallb attempt_failed evs = true
      | _ => False
      end.
Proof.
  revert m. induction n as [|n IH]; intros m; simpl.
  - exists []. by repeat split.
  - destruct (session (self m)) as [sess|] eqn:Hs.
    + rewrite (session_request_some _ _ _ _ sess Hs). cbv zeta.
      set (r := request_on sess reqtype url json).
      destruct (transport r (env (world m))) as [o e1] eqn:Ht. simpl.
      set (m1 := {| self := self m;
                    world := {| env := e1; trace := Sent r o :: trace (world m) |} |}).
      assert (Hframe :
        ∃ evs,
          trace (world (call_loop n reqtype url json m1).2) = evs ++ trace (world m)
          ∧ (length evs ≤ S n)%nat
          ∧ Forall (λ ev, ∃ sess, session (self m) = Some sess
                      ∧ sent_as (request_on sess reqtype url json) ev) evs
          ∧ (fails o = true →
             match (call_loop n reqtype url json m1).1 with
             | (true, Some resp) =>
                 status_code resp = 200%Z
                 ∧ ∃ r evs', evs = Sent r (Responded resp) :: evs'
                             ∧ forallb attempt_failed evs' = true
             | (false, None) => forallb attempt_failed evs = true
             | _ => False
             end)).
      { destruct (IH m1) as (evs & Htr & Hlen & Hall & Hres).
        exists (evs ++ [Sent r o]). rewrite <- app_assoc. simpl.
        split; [done|]. split; [rewrite length_app; simpl; lia|].
        split.
        - apply Forall_app. split; [done|].
          apply Forall_singleton. exists sess. split; [done|]. by exists o.
        - intros Hfail.
          destruct (call_loop n reqtype url json m1) as [[[|] [resp|]] m2];
            simpl in *; try done.
          + destruct Hres as (H200 & r' & evs' & -> & Hf). split; [done|].
            exists r', (evs' ++ [Sent r o]). split; [done|].
            rewrite forallb_app, Hf. simpl. by rewrite Hfail.
          + rewrite forallb_app, Hres. simpl. by rewrite Hfail. }
      destruct o as [resp|why]; simpl.
      * destruct (status_code resp =? 200)%Z eqn:H200; simpl.
        -- exists [Sent r (Responded resp)]. simpl.
           split; [done|]. split; [lia|]. split.
           ++ apply Forall_singleton. exists sess. split; [done|].
              by exists (Responded resp).
           ++ split; [by apply Z.eqb_eq|]. by exists r, [].
        -- destruct Hframe as (evs & ? & ? & Hall & Hres). exists evs.
           split; [done|]. split; [done|]. split; [by rewrite <- Hs|].
           apply Hres. simpl. by rewrite H200.
      * destruct Hframe as (evs & ? & ? & Hall & Hres). exists evs.
        split; [done|]. split; [done|]. split; [by rewrite <- Hs|].
        by apply Hres.
    + rewrite session_request_none by done.
      destruct (IH m) as (evs & Htr & Hlen & Hall & Hres).
      exists evs. split; [done|]. split; [lia|]. split; [|done].
      by rewrite <- Hs.
Qed.

Lemma call_done_trace (url reqtype : string) (json : option JSON)
    (retries : Z) (m : Machine) :
  ∃ r m' evs,
    __call url reqtype json retries m = Done r m'
    ∧ self m' = self m
    ∧ clock_reads m' = clock_reads m
    ∧ trace (world m') = evs ++ trace (world m)
    ∧ (length evs ≤ Z.to_nat (retries + 1))%nat
    ∧ Forall (λ ev, ∃ sess, session (self m) = Some sess
                ∧ sent_as (request_on sess reqtype url json) ev) evs.
Proof.
  unfold __call.
  destruct (call_loop_trace (Z.to_nat (retries + 1)) reqtype url json m)
    as (evs & Htr & Hlen & Hall & _).
  pose proof (call_loop_frame (Z.to_nat (retries + 1)) reqtype url json m)
    as (Hself & _ & Hclock).
  destruct (call_loop _ _ _ _ m) as [r m']. simpl in *.
  by exists r, m', evs.
Qed.

(** X2: [__call] never raises and never touches the connector; it sends at
    most [retries + 1] requests, all the same request on the session of the
    connector, and reads no clock. *)
Theorem call_attempts_bounded (url reqtype : string) (json : option JSON)
    (retries : Z) (m : Machine) :
  ∃ r m' evs,
    __call url reqtype json retries m = Done r m'
    ∧ self m' = self m
    ∧ clock_reads m' = clock_reads m
    ∧ trace (world m') = evs ++ trace (world m)
    ∧ (Z.of_nat (length evs) <= Z.max 0 (retries + 1))%Z
    ∧ Forall (λ ev, ∃ sess, session (self m) = Some sess
                ∧ sent_as (request_on sess reqtype url json) ev) evs.
Proof.
  unfold __call.
  destruct (call_loop_trace (Z.to_nat (retries + 1)) reqtype url json m)
    as (evs & Htr & Hlen & Hall & _).
  pose proof (call_loop_frame (Z.to_nat (retries + 1)) reqtype url json m)
    as (Hself & _ & Hclock).
  destruct (call_loop _ _ _ _ m) as [r m']. simpl in *.
  exists r, m', evs. repeat split; try done. lia.
Qed.

(** X3: what [__call] returns tells what happened: [(True, resp)] comes
    with a response of status 200, which is the latest request of the trace,
    every attempt before it having failed; the only other result is
    [(False, None)], after attempts that all failed. *)
Theorem call_result_shape (url reqtype : string) (json : option JSON)
    (retries : Z) (m : Machine) :
  match __call url reqtype json retries m with
  | Done (true, Some resp) m' =>
      status_code resp = 200%Z
      ∧ ∃ r evs, trace (world m') = Sent r (Responded resp) :: evs ++ trace (world m)
                 ∧ forallb attempt_failed evs = true
  | Done (false, None) m' =>
      ∃ evs, trace (world m') = evs ++ trace (world m)
             ∧ forallb attempt_failed evs = true
  | _ => False
  end.
Proof.
  unfold __call.
  destruct (call_loop_trace (Z.to_nat (retries + 1)) reqtype url json m)
    as (evs & Htr & _ & _ & Hres).
  destruct (call_loop _ _ _ _ m) as [[[|] [resp|]] m']; simpl in *; try done.
  - destruct Hres as (H200 & r & evs' & -> & Hf). split; [done|].
    by exists r, evs'.
  - by exists evs.
Qed.

(** ** More about the session *)

(** X4: a [login] whose request succeeds stores the body of the answer as
    the [authorization] cookie of the session, keeping the other cookies and
    the headers, and sets [connected]; nothing else of the connector
    changes. *)
Theorem login_stores_credential (retries : Z) (m m1 : Machine) (resp : Response) :
  __call (endpoint (self m) "/admin/api/login") "POST"
      (Some (JObj [("login", JStr (username (self m)));
                   ("password", JStr (password (self m)))])) retries m
    = Done (true, Some resp) m1 →
  ∃ sess,
    session (self m) = Some sess
    ∧ login retries m =
        Done true
          {| self :=
               set_connected true
                 (set_session
                    (Some {| cookies := <["authorization" := text resp]> (cookies sess);
                             headers := headers sess |})
                    (self m));
             world := world m1 |}
    ∧ (<["authorization" := text resp]> (cookies sess) : gmap string string)
        !! "authorization" = Some (text resp)
    ∧ ∀ name, name ≠ "authorization" →
        (<["authorization" := text resp]> (cookies sess) : gmap string string)
          !! name = cookies sess !! name.
Proof.
  intros Hcall.
  destruct (call_success _ _ _ _ _ _ _ Hcall) as (_ & [sess Hs] & Hself).
  exists sess. split; [by rewrite <- Hself|].
  split; [|split].
  - unfold login. run. rewrite Hcall. simpl. rewrite Hs. simpl.
    by rewrite Hself.
  - apply lookup_insert_eq.
  - intros name Hne. by apply lookup_insert_ne.
Qed.

(** X5: [False] from any operation other than a token acquisition, and
    from [read_system_version], means that nothing was changed: the
    connector is as it was before the call. *)
Theorem false_leaves_connector (fuel : nat) (m : Machine) :
  (∀ op m', is_acquisition op = false →
     invoke fuel op m = Done false m' → self m' = self m)
  ∧ (∀ m', read_system_version m = Done false m' → self m' = self m).
Proof.
  split.
  - intros op m' Hop.
    destruct op; simpl in Hop; try discriminate; simpl.
    + unfold login. run.
      match goal with |- context [__call ?u ?t ?j ?r m] =>
        destruct (call_done u t j r m) as ([res resp] & m1 & -> & Hs & _) end.
      simpl. destruct res; simpl; [|by intros [= <-]].
      destruct resp as [resp|]; simpl; [|done].
      by destruct (session (self m1)).
    + unfold logout. run.
      match goal with |- context [__call ?u ?t ?j ?r m] =>
        destruct (call_done u t j r m) as ([res resp] & m1 & -> & Hs & _) end.
      simpl. destruct res; simpl; [done|by intros [= <-]].
    + unfold can_control. run.
      destruct (control_token_req (self m)); simpl; [|done].
      pose proof (is_control_token_active_frame m) as Hf.
      destruct (is_control_token_active m) as [[|] m1|e m1|]; simpl; try done.
      destruct Hf as [Hs _]. by intros [= <-].
    + pose proof (is_control_token_active_frame m) as Hf.
      destruct (is_control_token_active m) as [b m1|e m1|]; simpl; try done.
      destruct Hf as [Hs _]. by intros [= _ <-].
    + destruct (release_control_token_self m) as (b & m1 & -> & Hs).
      by intros [= _ <-].
    + unfold enable_fci. run.
      match goal with |- context [__call ?u ?t ?j ?r m] =>
        destruct (call_done u t j r m) as ([res resp] & m1 & -> & Hs & _) end.
      simpl. by intros [= _ <-].
    + unfold disable_fci. run.
      match goal with |- context [__call ?u ?t ?j ?r m] =>
        destruct (call_done u t j r m) as ([res resp] & m1 & -> & Hs & _) end.
      simpl. by intros [= _ <-].
    + unfold open_brakes. run.
      match goal with |- context [__call ?u ?t ?j ?r m] =>
        destruct (call_done u t j r m) as ([res resp] & m1 & -> & Hs & _) end.
      simpl. by intros [= _ <-].
    + unfold close_brakes. run.
      match goal with |- context [__call ?u ?t ?j ?r m] =>
        destruct (call_done u t j r m) as ([res resp] & m1 & -> & Hs & _) end.
      simpl. by intros [= _ <-].
    + unfold home_gripper. run.
      match goal with |- context [__call ?u ?t ?j ?r m] =>
        destruct (call_done u t j r m) as ([res resp] & m1 & -> & Hs & _) end.
      simpl. by intros [= _ <-].
  - intros m'. unfold read_system_version. run.
    match goal with |- context [__call ?u ?t ?j ?r m] =>
      destruct (call_done u t j r m) as ([res resp] & m1 & -> & Hs & _) end.
    simpl. destruct res; simpl; [|by intros [= <-]].
    destruct resp as [resp|]; simpl; [|done].
    destruct (version_parse _); [|done].
    destruct (version_parse "4.2.0"); [|done].
    by destruct (version_ge _ _).
Qed.

(** X6: [connect] always starts from a new session: however it ends, the
    session of the connector holds no header and at most the
    [authorization] cookie of this login, so the cookies and the
    [X-Control-Token] header of an earlier session are gone, while
    [control_token] and [control_token_id] keep their values. *)
Theorem connect_starts_new_session (retries : Z) (m : Machine) :
  match connect retries m with
  | Done _ m' | Raised _ m' =>
      (session (self m') = Some new_session
       ∨ ∃ body,
           session (self m')
             = Some {| cookies := <["authorization" := body]> ∅; headers := ∅ |})
      ∧ control_token (self m') = control_token (self m)
      ∧ control_token_id (self m') = control_token_id (self m)
  | OutOfFuel => False
  end.
Proof.
  unfold connect, login, read_system_version. run.
  match goal with |- context [__call ?u ?t ?j ?r ?x] =>
    destruct (call_done u t j r x) as ([res resp] & m1 & -> & Hs1 & _) end.
  simpl in *. destruct res; simpl; [|rewrite Hs1; simpl; split; [by left|by split]].
  destruct resp as [resp|]; simpl; [|rewrite Hs1; simpl; split; [by left|by split]].
  rewrite Hs1. simpl.
  match goal with |- context [__call ?u ?t ?j ?r ?x] =>
    destruct (call_done u t j r x) as ([res2 resp2] & m2 & -> & Hs2 & _) end.
  simpl in *.
  destruct res2; simpl; [|rewrite Hs2; simpl; rewrite Hs1; simpl;
    split; [right; by eexists|by split]].
  destruct resp2 as [resp2|]; simpl; [|rewrite Hs2; simpl; rewrite Hs1; simpl;
    split; [right; by eexists|by split]].
  destruct (version_parse _); simpl; [|rewrite Hs2; simpl; rewrite Hs1; simpl;
    split; [right; by eexists|by split]].
  destruct (version_parse "4.2.0"); simpl; [|rewrite Hs2; simpl; rewrite Hs1; simpl;
    split; [right; by eexists|by split]].
  destruct (version_ge _ _); simpl; rewrite Hs2; simpl; rewrite Hs1; simpl;
    (split; [right; by eexists|by split]).
Qed.

(** X7: a [connect] that returns [True] has logged in and read a version:
    the connector is [connected], carries an [authorization] cookie and has
    a [version] recorded. *)
Theorem connect_true_is_connected (retries : Z) (m m' : Machine) :
  connect retries m = Done true m' →
  connected (self m') = true
  ∧ is_Some (version (self m'))
  ∧ ∃ sess body, session (self m') = Some sess
                 ∧ cookies sess !! "authorization" = Some body.
Proof.
  unfold connect, login, read_system_version. run.
  match goal with |- context [__call ?u ?t ?j ?r ?x] =>
    destruct (call_done u t j r x) as ([res resp] & m1 & -> & Hs1 & _) end.
  simpl in *. destruct res; simpl; [|done].
  destruct resp as [resp|]; simpl; [|done].
  rewrite Hs1. simpl.
  match goal with |- context [__call ?u ?t ?j ?r ?x] =>
    destruct (call_done u t j r x) as ([res2 resp2] & m2 & -> & Hs2 & _) end.
  simpl in *.
  destruct res2; simpl; [|done].
  destruct resp2 as [resp2|]; simpl; [|done].
  destruct (version_parse _); simpl; [|done].
  destruct (version_parse "4.2.0"); simpl; [|done].
  destruct (version_ge _ _); simpl; intros [= <-]; simpl; rewrite Hs2; simpl;
    (split; [done|]); (split; [by eexists|]);
    eexists _, _; (split; [done|]); simpl; apply lookup_insert_eq.
Qed.

(** X8: when the version text does not parse, [read_system_version] does not
    return [False]: the [InvalidVersion] of the parser propagates, after the
    text has been recorded as [version] and with [control_token_req]
    untouched. *)
Theorem read_system_version_invalid_raises (m m1 : Machine) (resp : Response) :
  __call (endpoint (self m) "/admin/api/system-version") "GET" None 5 m
    = Done (true, Some resp) m1 →
  version_parse (split_first backslash_n (strip dquote (text resp))) = None →
  read_system_version m =
    Raised InvalidVersion
      {| self := set_version
                   (Some (split_first backslash_n (strip dquote (text resp))))
                   (self m);
         world := world m1 |}.
Proof.
  intros Hcall Hparse.
  destruct (call_success _ _ _ _ _ _ _ Hcall) as (_ & _ & Hself).
  unfold read_system_version. run. rewrite Hcall. simpl.
  rewrite Hparse. by rewrite Hself.
Qed.

Lemma lstrip_stops (c a : ascii) (s : string) :
  Ascii.eqb a c = false → lstrip c (String a s) = String a s.
Proof. intros H. simpl. by rewrite H. Qed.

Lemma rstrip_keeps (c a : ascii) (s : string) :
  Ascii.eqb a c = false → rstrip c (String a s) = String a (rstrip c s).
Proof. intros H. simpl. rewrite H. by destruct (rstrip c s). Qed.

Lemma rstrip_free_app (c : ascii) (v s : string) :
  free_of c v = true → rstrip c (v ++ s)%string = (v ++ rstrip c s)%string.
Proof.
  induction v as [|a v IH]; [done|]. simpl.
  intros [Ha Hv]%andb_prop. apply negb_true_iff in Ha.
  change (rstrip c (String a (v ++ s)%string) = String a (v ++ rstrip c s)%string).
  rewrite rstrip_keeps by done. by rewrite IH.
Qed.

Lemma prefix_backslash_n (s : string) :
  String.prefix backslash_n (backslash_n ++ s)%string = true.
Proof. by destruct s. Qed.

Lemma prefix_backslash_n_other (a : ascii) (s : string) :
  Ascii.eqb a backslash = false →
  String.prefix backslash_n (String a s) = false.
Proof.
  intros Ha.
  change (String.prefix backslash_n (String a s))
    with (if ascii_dec "\"%char a then String.prefix "n" s else false).
  destruct (ascii_dec "\"%char a) as [<-|_]; [|done]. by vm_compute in Ha.
Qed.

Lemma split_first_cons (sep : string) (a : ascii) (s : string) :
  split_first sep (String a s) =
    if String.prefix sep (String a s) then EmptyString
    else String a (split_first sep s).
Proof. done. Qed.

Lemma split_first_free (v s : string) :
  free_of backslash v = true →
  split_first backslash_n (v ++ backslash_n ++ s)%string = v
  ∧ split_first backslash_n v = v.
Proof.
  induction v as [|a v IH].
  - intros _. split; [|done].
    change (split_first backslash_n (String backslash (String "n" s)) = EmptyString).
    rewrite split_first_cons.
    change (String backslash (String "n" s)) with (backslash_n ++ s)%string.
    by rewrite prefix_backslash_n.
  - intros H.
    change (negb (Ascii.eqb a backslash) && free_of backslash v = true) in H.
    apply andb_prop in H as [Ha Hv]. apply negb_true_iff in Ha.
    destruct (IH Hv) as [IH1 IH2].
    change (String a v ++ backslash_n ++ s)%string
      with (String a (v ++ backslash_n ++ s)%string).
    rewrite !split_first_cons, !prefix_backslash_n_other by done.
    by rewrite IH1, IH2.
Qed.

(** The line that [read_system_version] takes from a body
    ["<v>\n<rest>"] or ["<v>"] is [v], for a [v] without quote and
    backslash. *)
Lemma version_line (v tail : string) :
  free_of dquote v = true →
  free_of backslash v = true →
  tail = EmptyString ∨ (∃ rest, tail = (backslash_n ++ rest)%string) →
  split_first backslash_n
    (strip dquote (String dquote (v ++ tail ++ String dquote EmptyString)%string)) = v.
Proof.
  intros Hq Hb Htail.
  destruct (decide (v = EmptyString ∧ tail = EmptyString)) as [[-> ->]|Hne];
    [done|].
  unfold strip.
  assert (Hl : lstrip dquote (String dquote (v ++ tail ++ String dquote EmptyString)%string)
               = (v ++ tail ++ String dquote EmptyString)%string).
  { change (lstrip dquote (v ++ tail ++ String dquote EmptyString)%string
            = (v ++ tail ++ String dquote EmptyString)%string).
    destruct v as [|a v].
    - destruct Htail as [->|[rest ->]]; [by destruct Hne|].
      change ((EmptyString ++ (backslash_n ++ rest) ++ String dquote EmptyString)%string)
        with (String backslash (String "n" (rest ++ String dquote EmptyString)%string)).
      by apply lstrip_stops.
    - simpl in Hq. apply andb_prop in Hq as [Ha _]. apply negb_true_iff in Ha.
      by apply lstrip_stops. }
  rewrite Hl. rewrite rstrip_free_app by done.
  destruct Htail as [->|[rest ->]].
  - simpl. replace (v ++ "")%string with v.
    + by apply (split_first_free v EmptyString).
    + clear. induction v as [|a v IH]; [done|].
      change (String a v = String a (v ++ "")%string). by rewrite <- IH.
  - change (((backslash_n ++ rest) ++ String dquote EmptyString)%string)
      with (String backslash (String "n" (rest ++ String dquote EmptyString)%string)).
    rewrite rstrip_keeps by done. rewrite rstrip_keeps by done.
    by apply (split_first_free v).
Qed.

(** X9: from a body that is a quoted text starting with [v], followed by
    nothing or by a backslash-n and more, [read_system_version] records
    exactly [v] as [version], provided [v] has no quote and no backslash;
    this holds whether the version then parses or not. *)
Theorem read_system_version_records_first_line (m m1 : Machine)
    (resp : Response) (v tail : string) :
  __call (endpoint (self m) "/admin/api/system-version") "GET" None 5 m
    = Done (true, Some resp) m1 →
  text resp = String dquote (v ++ tail ++ String dquote EmptyString)%string →
  free_of dquote v = true →
  free_of backslash v = true →
  tail = EmptyString ∨ (∃ rest, tail = (backslash_n ++ rest)%string) →
  match read_system_version m with
  | Done _ m' | Raised _ m' => version (self m') = Some v
  | OutOfFuel => False
  end.
Proof.
  intros Hcall Htext Hq Hb Htail.
  unfold read_system_version. run. rewrite Hcall. simpl.
  rewrite Htext, (version_line v tail Hq Hb Htail).
  destruct (version_parse v); [|done].
  destruct (version_parse "4.2.0"); [|done].
  by destruct (version_ge _ _).
Qed.

(** ** More about control authority *)

(** X10: on a connector that has no session yet, no operation raises or
    sends anything: each returns at once with the connector and the world
    untouched, [can_control] with [not control_token_req] and every other
    operation with [False]. *)
Theorem operations_without_session (fuel : nat) (op : Operation) (m : Machine) :
  session (self m) = None →
  invoke fuel op m =
    Done match op with
         | OpCanControl => negb (control_token_req (self m))
         | _ => false
         end m.
Proof.
  intros Hs.
  assert (Hcall : ∀ url reqtype json retries,
    __call url reqtype json retries m = Done (false, None) m)
    by (intros; by apply call_no_session).
  destruct op; simpl;
    unfold login, logout, acquire_control_token, can_control,
      is_control_token_active, release_control_token, enable_fci, disable_fci,
      open_brakes, close_brakes, home_gripper; run;
    try (by rewrite Hcall).
  - destruct force; by rewrite Hcall.
  - destruct (control_token_req (self m)); simpl; [|done]. by rewrite Hcall.
Qed.

(** X11: an answer to the control-token query that decodes to a dict
    without [activeToken], or whose [activeToken] is a dict without [id],
    makes [is_control_token_active] raise [KeyError] rather than return
    [False]; the connector is unchanged. *)
Theorem is_control_token_active_missing_key (m m1 : Machine) (resp : Response)
    (d : list (string * JSON)) :
  __call (endpoint (self m) "/admin/api/control-token") "GET" None 5 m
    = Done (true, Some resp) m1 →
  json_loads (text resp) = Some (JObj d) →
  assoc "activeToken" d = None
  ∨ (∃ a, assoc "activeToken" d = Some (JObj a) ∧ assoc "id" a = None) →
  is_control_token_active m = Raised KeyError m1 ∧ self m1 = self m.
Proof.
  intros Hcall Hbody Hkey.
  destruct (call_success _ _ _ _ _ _ _ Hcall) as (_ & _ & Hself).
  split; [|done].
  unfold is_control_token_active. run. rewrite Hcall. simpl. rewrite Hbody.
  simpl. destruct Hkey as [->|(a & -> & Hid)]; [done|]. simpl.
  by rewrite Hid.
Qed.

(** X12: [is_control_token_active] only looks: whether it returns or
    raises, the connector is as before, no clock was read, and what it sent
    is at most six requests, each a [GET] of the control-token endpoint
    without a body. *)
Theorem is_control_token_active_only_queries (m : Machine) :
  match is_control_token_active m with
  | Done _ m' | Raised _ m' =>
      self m' = self m
      ∧ clock_reads m' = clock_reads m
      ∧ ∃ evs, trace (world m') = evs ++ trace (world m)
               ∧ (length evs ≤ 6)%nat
               ∧ Forall (λ ev, ∃ sess,
                           session (self m) = Some sess
                           ∧ sent_as (request_on sess "GET"
                                        (endpoint (self m) "/admin/api/control-token")
                                        None) ev) evs
  | OutOfFuel => False
  end.
Proof.
  unfold is_control_token_active. run.
  destruct (call_done_trace
              (endpoint (self m) "/admin/api/control-token") "GET" None 5 m)
    as ([res resp] & m' & evs & -> & Hs & Hc & Htr & Hlen & Hall).
  assert (Hgoal :
    self m' = self m ∧ clock_reads m' = clock_reads m
    ∧ ∃ evs, trace (world m') = evs ++ trace (world m)
             ∧ (length evs ≤ 6)%nat
             ∧ Forall (λ ev, ∃ sess,
                         session (self m) = Some sess
                         ∧ sent_as (request_on sess "GET"
                                      (endpoint (self m) "/admin/api/control-token")
                                      None) ev) evs).
  { split; [done|]. split; [done|]. exists evs. split; [done|]. split; [lia|done]. }
  simpl. destruct res; simpl; [|done].
  destruct resp as [resp|]; simpl; [|done].
  destruct (json_loads (text resp)) as [v|]; simpl; [|done].
  destruct (getitem v "activeToken") as [e|a]; simpl; [done|].
  destruct a; simpl; try done;
    match goal with |- context [assoc ?k ?d] => destruct (assoc k d) end; done.
Qed.

(** X13: the forced token request is made only after a safety answer that
    names the timeout: when the safety query fails,
    [acquire_control_token(force=True)] returns [False], and when its answer
    is a dict without [tokenForceTimeout] the method raises [KeyError]; in
    both cases nothing follows the safety query and the connector is
    unchanged. *)
Theorem forced_acquire_needs_timeout (fuel : nat) (m m1 : Machine)
    (res : bool) (resp : option Response) :
  __call (endpoint (self m) "/admin/api/safety") "GET" None 5 m
    = Done (res, resp) m1 →
  res = false
  ∨ (∃ r d, resp = Some r ∧ json_loads (text r) = Some (JObj d)
            ∧ assoc "tokenForceTimeout" d = None) →
  self m1 = self m
  ∧ match acquire_control_token fuel true m with
    | Done b m' => res = false ∧ b = false ∧ m' = m1
    | Raised e m' => res = true ∧ e = KeyError ∧ m' = m1
    | OutOfFuel => False
    end.
Proof.
  intros Hcall Hwhy.
  destruct (call_done (endpoint (self m) "/admin/api/safety") "GET" None 5 m)
    as (r0 & m0 & Hc & Hself & _).
  rewrite Hcall in Hc. simplify_eq. split; [done|].
  unfold acquire_control_token. run. rewrite Hcall. simpl.
  destruct res; simpl.
  - destruct Hwhy as [?|(r & d & -> & Hbody & Hkey)]; [done|].
    simpl. rewrite Hbody. simpl. by rewrite Hkey.
  - done.
Qed.

(** X14: when the safety answer names a [tokenForceTimeout] that is no
    number (a string, [None], a list or a dict), the forced acquisition
    still requests and stores the token and sets the header, reads the
    clock twice and then raises [TypeError] at [start + timeout], before any
    poll. *)
Theorem forced_acquire_timeout_not_a_number (fuel : nat)
    (m m1 m2 : Machine) (safety granted : Response)
    (limits body timeout tok i : JSON) :
  __call (endpoint (self m) "/admin/api/safety") "GET" None 5 m
    = Done (true, Some safety) m1 →
  json_loads (text safety) = Some limits →
  getitem limits "tokenForceTimeout" = inr timeout →
  as_number timeout = None →
  __call (endpoint (self m) "/admin/api/control-token/request?force") "POST"
      (Some (JObj [("requestedBy", JStr (username (self m)))])) 5 m1
    = Done (true, Some granted) m2 →
  json_loads (text granted) = Some body →
  getitem body "token" = inr tok →
  getitem body "id" = inr i →
  (0 < fuel)%nat →
  ∃ sess,
    session (self m) = Some sess
    ∧ let start := wall_clock (env (world m2)) in
      let t := wall_clock start.2 in
      acquire_control_token fuel true m =
        Raised TypeError
          {| self := with_token tok i sess (self m);
             world := {| env := t.2;
                         trace := ClockRead t.1 :: ClockRead start.1
                                  :: trace (world m2) |} |}.
Proof.
  intros Hsafe Hlimits Htimeout Hnum Hreq Hbody Htok Hid Hfuel.
  destruct (call_success _ _ _ _ _ _ _ Hsafe) as (_ & _ & Hself1).
  destruct (call_success _ _ _ _ _ _ _ Hreq) as (_ & [sess Hs] & Hself2).
  exists sess.
  split; [by rewrite <- Hself1, <- Hself2|]. cbv zeta.
  unfold acquire_control_token.
  unfold mbind, M_bind, bind, get_self. simpl. rewrite Hsafe. simpl.
  unfold resp_text, mret, M_ret, ret, loads_item. rewrite Hlimits, Htimeout. simpl.
  rewrite Hreq. simpl.
  rewrite (store_token_ok m2 granted body tok i sess) by done.
  rewrite time_time_reads.
  destruct fuel as [|fuel]; [lia|]. simpl.
  unfold mbind, M_bind, bind. rewrite time_time_reads. rewrite Hnum. simpl.
  unfold raise. by rewrite Hself2, Hself1.
Qed.

(** X15: a granted token request whose body has a [token] but no [id]
    leaves the connector half updated: [control_token] is already the new
    token when [KeyError] is raised, while [control_token_id] and the
    session, with its [X-Control-Token] header, are the old ones.  This
    holds for the forced and for the standard request. *)
Theorem acquire_without_id_half_stored (fuel : nat) (force : bool)
    (m m1 m2 : Machine) (granted : Response) (d : list (string * JSON))
    (tok : JSON) :
  reaches_token_request force m m1 →
  __call (endpoint (self m) (token_request_path force)) "POST"
      (Some (JObj [("requestedBy", JStr (username (self m)))])) 5 m1
    = Done (true, Some granted) m2 →
  json_loads (text granted) = Some (JObj d) →
  assoc "token" d = Some tok →
  assoc "id" d = None →
  acquire_control_token fuel force m =
    Raised KeyError
      {| self := set_control_token tok (self m); world := world m2 |}.
Proof.
  intros Hreach Hcall Hbody Htok Hid.
  assert (Hself : self m2 = self m).
  { destruct (call_success _ _ _ _ _ _ _ Hcall) as (_ & _ & ->).
    destruct force; simpl in Hreach; [|by subst].
    destruct Hreach as (r1 & v & t & Hsafe & _).
    by destruct (call_success _ _ _ _ _ _ _ Hsafe) as (_ & _ & ?). }
  assert (Hstore : store_token (Some granted) m2 =
    Raised KeyError {| self := set_control_token tok (self m); world := world m2 |}).
  { unfold store_token. run. rewrite Hbody. simpl. rewrite Htok. simpl.
    rewrite Hid. by rewrite Hself. }
  unfold acquire_control_token.
  unfold mbind, M_bind, bind, get_self. simpl.
  destruct force; simpl in *.
  - destruct Hreach as (r1 & v & t & Hsafe & Hv & Ht).
    rewrite Hsafe. simpl.
    unfold resp_text, mret, M_ret, ret, loads_item. rewrite Hv, Ht. simpl.
    rewrite Hcall. simpl. by rewrite Hstore.
  - subst m1. rewrite Hcall. simpl. by rewrite Hstore.
Qed.

(** X16: the brake, gripper and FCI commands are plain calls: none raises,
    none changes the connector or reads the clock, and each sends at most
    six requests, whatever [retries] is given to [open_brakes]. *)
Theorem arm_commands_pass_through (fuel : nat) (op : Operation) (m : Machine) :
  is_arm_command op = true →
  ∃ b m' evs,
    invoke fuel op m = Done b m'
    ∧ self m' = self m
    ∧ clock_reads m' = clock_reads m
    ∧ trace (world m') = evs ++ trace (world m)
    ∧ (length evs ≤ 6)%nat
    ∧ Forall (λ ev, ∃ r o, ev = Sent r o) evs.
Proof.
  intros Hop.
  destruct op; simpl in Hop; try discriminate; simpl;
    unfold enable_fci, disable_fci, open_brakes, close_brakes, home_gripper; run;
    match goal with |- context [__call ?u ?t ?j ?r m] =>
      destruct (call_done_trace u t j r m)
        as ([res resp] & m' & evs & -> & Hs & Hc & Htr & Hlen & Hall)
    end; simpl;
    exists res, m', evs; repeat split; try done; try lia;
    (eapply Forall_impl; [exact Hall|]);
    intros ev (sess & _ & o & ->); by eexists _, _.
Qed.
End Properties.

(** * Properties of the handler node *)

Section NodeProperties.
Context {host : Host} {jsonlib : JsonLib} {versionlib : VersionLib} {ros : Ros}.

Ltac node_run :=
  unfold mbind, NodeM_bind, node_bind, mret, NodeM_ret, node_ret, respond,
    on_connector, log, get_node, set_panda_connector in *; simpl in *.

Ltac connector_run :=
  unfold mbind, M_bind, bind, mret, M_ret, ret, get_self in *; simpl in *.

(** A connector without a session answers the three startup commands with
    [False] and stays as it is. *)
Lemma startup_commands_no_session (m : Machine) :
  session (self m) = None →
  open_brakes 5 m = Done false m
  ∧ home_gripper m = Done false m
  ∧ enable_fci m = Done false m.
Proof.
  intros Hs.
  assert (Hcall : ∀ url reqtype json retries,
    __call url reqtype json retries m = Done (false, None) m)
    by (intros; by apply call_no_session).
  unfold open_brakes, home_gripper, enable_fci. connector_run.
  by rewrite !Hcall.
Qed.

(** X17: [on_shutdown] does none of its cleanup: with a connector in place
    it raises [AttributeError] at [self.panda_connector.calling], an
    attribute [PandaConnector] does not have, before the brakes are closed,
    FCI is disabled, the token is released or the session is logged out;
    nothing is sent and nothing is logged.  Without a connector it returns
    at once. *)
Theorem on_shutdown_skips_cleanup (fuel : nat) (nm : NodeMachine) :
  match panda_connector (node nm) with
  | Some _ => on_shutdown (S fuel) nm = Threw AttributeError nm
  | None => on_shutdown fuel nm = Returned tt nm
  end.
Proof.
  unfold on_shutdown. node_run.
  destruct (panda_connector (node nm)); [|done].
  unfold connector_calling. done.
Qed.

(** X18: with [connection_retries] at or above zero, as by default, [main]
    never calls [connect]: it logs "Login successful" on a connector that
    has no session, takes the arm as not requiring control authority, and
    sends no request at all.  Each of the automatic steps (brakes, gripper,
    FCI) then fails, so [main] sets up its services exactly when none of
    the three is asked for. *)
Theorem main_without_connect (fuel : nat) (p : Params) (nm : NodeMachine) :
  (0 <= connection_retries p)%Z →
  ∃ lines,
    main fuel p nm =
      Returned
        (negb (auto_open_brakes p || auto_home_gripper p || auto_enable_fci p))
        {| node := {| panda_connector :=
                        Some (init (param_robot_ip p) (param_username p)
                                (param_password p)) |};
           node_world := node_world nm;
           rosout := lines ++ rosout nm |}
    ∧ In {| log_level := LogInfo; log_text := "Login successful" |} lines
    ∧ In {| log_level := LogInfo;
            log_text := "Panda arm does not require single point of control" |}
         lines.
Proof.
  intros Hretries.
  assert (Hneg : (connection_retries p <? 0)%Z = false) by lia.
  set (c := init (param_robot_ip p) (param_username p) (param_password p)).
  destruct (startup_commands_no_session
              {| self := c; world := node_world nm |} eq_refl)
    as (Hbrakes & Hgripper & Hfci).
  unfold main, startup_control. rewrite Hneg. fold c.
  remember (open_brakes 5) as brakes eqn:Ebrakes in *.
  remember home_gripper as gripper eqn:Egripper in *.
  remember enable_fci as fci eqn:Efci in *.
  clear Ebrakes Egripper Efci.
  destruct nm as [nd w out]. node_run.
  destruct (auto_open_brakes p); simpl.
  { rewrite Hbrakes. simpl. eexists (_ :: _ :: _ :: _ :: []). simpl.
    split; [reflexivity|]. split; auto 10. }
  destruct (auto_home_gripper p); simpl.
  { rewrite Hgripper. simpl. eexists (_ :: _ :: _ :: _ :: []). simpl.
    split; [reflexivity|]. split; auto 10. }
  destruct (auto_enable_fci p); simpl.
  { rewrite Hfci. simpl. eexists (_ :: _ :: _ :: _ :: []). simpl.
    split; [reflexivity|]. split; auto 10. }
  eexists (_ :: _ :: _ :: _ :: []). simpl.
  split; [reflexivity|]. split; auto 10.
Qed.

(** X19: on an arm that does not require control authority
    ([control_token_req] false) both control handlers answer with success
    and do nothing: [handle_acquire_control] says the node already has
    control, [handle_release_control] that none is required; no request is
    sent, nothing is logged and the node is unchanged. *)
Theorem control_handlers_without_requirement (fuel : nat) (data : bool)
    (nm : NodeMachine) (c : PandaConnector) :
  panda_connector (node nm) = Some c →
  control_token_req c = false →
  handle_acquire_control fuel data nm =
    Returned {| success := true; message := "Node already has control authority" |} nm
  ∧ handle_release_control nm =
      Returned {| success := true;
                  message := "Robot doesn't require control authority" |} nm.
Proof.
  intros Hc Hreq.
  destruct nm as [[pc] [e tr] out]. simpl in *. subst pc.
  unfold handle_acquire_control, handle_release_control, can_control.
  node_run. connector_run. rewrite Hreq. simpl. by rewrite Hreq.
Qed.

(** X20: when control authority is required and the node's token is not
    the active one, [handle_release_control] reports success ("Robot does
    not have control authority") and sends no release request: the world is
    left as the activity check left it. *)
Theorem release_handler_without_active_token (nm : NodeMachine)
    (c : PandaConnector) (m1 : Machine) :
  panda_connector (node nm) = Some c →
  control_token_req c = true →
  is_control_token_active {| self := c; world := node_world nm |}
    = Done false m1 →
  handle_release_control nm =
    Returned {| success := true;
                message := "Robot does not have control authority" |}
      {| node := node nm; node_world := world m1; rosout := rosout nm |}.
Proof.
  intros Hc Hreq Hactive.
  pose proof (is_control_token_active_frame {| self := c; world := node_world nm |})
    as Hf. rewrite Hactive in Hf. destruct Hf as [Hself _]. simpl in Hself.
  destruct nm as [[pc] w out]. simpl in *. subst pc.
  unfold handle_release_control, can_control.
  node_run. connector_run. rewrite Hreq. rewrite Hactive. simpl.
  by rewrite Hself.
Qed.

(** X21: the FCI handlers ask [is_control_token_active], not
    [can_control]: whenever the node's token is not reported active they
    refuse and send no FCI request, also on an arm that does not require
    control authority, where [can_control] says yes. *)
Theorem fci_handlers_need_active_token (nm : NodeMachine)
    (c : PandaConnector) (m1 : Machine) :
  panda_connector (node nm) = Some c →
  is_control_token_active {| self := c; world := node_world nm |}
    = Done false m1 →
  handle_enable_fci nm =
    Returned
      {| success := false;
         message := "Node does not have control authority, cannot activate fci" |}
      {| node := node nm; node_world := world m1; rosout := rosout nm |}
  ∧ handle_disable_fci nm =
      Returned
        {| success := false;
           message := "Node does not have control authority, cannot disable fci" |}
        {| node := node nm; node_world := world m1; rosout := rosout nm |}
  ∧ (control_token_req c = false →
     on_connector can_control nm = Returned true nm).
Proof.
  intros Hc Hactive.
  pose proof (is_control_token_active_frame {| self := c; world := node_world nm |})
    as Hf. rewrite Hactive in Hf. destruct Hf as [Hself _]. simpl in Hself.
  destruct nm as [[pc] w out]. simpl in *. subst pc.
  unfold handle_enable_fci, handle_disable_fci, can_control.
  node_run. rewrite Hactive. simpl. rewrite Hself.
  split; [done|]. split; [done|].
  intros Hreq. connector_run. by rewrite Hreq.
Qed.

(** X22: the brake handler does not check control authority: whatever the
    state of the connector, [handle_open_brakes] sends nothing but its own
    request, at most six times, and its [success] is [True] exactly when it
    logged the warning that the brakes are open. *)
Theorem open_brakes_handler_only_opens (nm : NodeMachine) (c : PandaConnector) :
  panda_connector (node nm) = Some c →
  ∃ resp nm' evs,
    handle_open_brakes nm = Returned resp nm'
    ∧ node nm' = node nm
    ∧ trace (node_world nm') = evs ++ trace (node_world nm)
    ∧ (length evs ≤ 6)%nat
    ∧ Forall (λ ev, ∃ sess,
                session c = Some sess
                ∧ sent_as (request_on sess "POST"
                             (endpoint c "/desk/api/robot/open-brakes") None) ev)
        evs
    ∧ rosout nm' =
        (if success resp then
           [{| log_level := LogWarn;
               log_text :=
                 "WARNING: PANDA BRAKES OPENED, APPROACH ROBOT WITH CATION!" |}]
         else []) ++ rosout nm.
Proof.
  intros Hc. destruct nm as [[pc] w out]. simpl in *. subst pc.
  unfold handle_open_brakes, open_brakes. node_run. connector_run.
  destruct (call_done_trace (endpoint c "/desk/api/robot/open-brakes") "POST"
              None 5 {| self := c; world := w |})
    as ([res r] & m' & evs & -> & Hs & _ & Htr & Hlen & Hall).
  simpl in *. destruct res; simpl; eexists _, _, evs;
    (split; [reflexivity|]); simpl; rewrite Hs;
    repeat split; try done; lia.
Qed.
End NodeProperties.

(** ** Scenarios on the scripted server *)

#[local] Existing Instance scripted_host.
#[local] Existing Instance fixture_json.
#[local] Existing Instance release_versions.

Lemma scripted_clock_monotone : clock_monotone.
Proof. intros e. simpl. unfold Qle. simpl. lia. Qed.

(** C1: a connector that connected, was granted token [abc] (id 7) and
    then released it with success still has the token, its identifier and
    the [X-Control-Token] header: [release_control_token] compares
    [control_token] with [None] where it was to clear it. *)
Theorem release_control_token_keeps_token :
  match (connect 20 ≫= λ _, acquire_control_token 1 false
           ≫= λ _, release_control_token)
          (facing [ok "cookie"; ok (quoted "4.2.1"); ok body_grant;
                   ok (body_holder "7"); ok ""] franka) with
  | Done released m' =>
      released = true
      ∧ control_token (self m') = JStr "abc"
      ∧ control_token_id (self m') = JNum 7
      ∧ (session (self m') ≫= λ s, headers s !! "X-Control-Token")
          = Some (JStr "abc")
  | _ => False
  end.
Proof. vm_compute. repeat split. Qed.

(** C4, the claim as stated fails: a connector that found version 4.2.0
    at [connect] and reads version 4.1.9 afterwards keeps
    [control_token_req] set, although 4.1.9 is below 4.2.0. *)
Lemma read_system_version_keeps_requirement_set :
  match (connect 20 ≫= λ _, read_system_version)
          (facing [ok "cookie"; ok (quoted "4.2.0"); ok (quoted "4.1.9")]
             franka) with
  | Done answered m' =>
      answered = true
      ∧ version (self m') = Some "4.1.9"
      ∧ (v ← version_parse "4.1.9"; v0 ← version_parse "4.2.0";
         Some (version_ge v v0)) = Some false
      ∧ control_token_req (self m') = true
  | _ => False
  end.
Proof. vm_compute. repeat split. Qed.

(** *** The theorems at work *)

Lemma call_attempts_exact_witness :
  (∃ m', __call brakes_url "POST" None 2
           (facing [refused 500; Failed TimedOut; refused 404; ok "late"]
              franka_online) = Done (false, None) m'
         ∧ length (trace (world m')) = 3%nat)
  ∧ (∃ m', __call brakes_url "POST" None 5
             (facing [Failed TimedOut; ok "done"; ok "unused"] franka_online)
             = Done (true, Some {| status_code := 200; text := "done" |}) m'
           ∧ length (trace (world m')) = 2%nat).
Proof.
  split.
  - destruct (call_attempts_exact 2
      (facing [refused 500; Failed TimedOut; refused 404; ok "late"] franka_online)
      new_session "POST" brakes_url None ltac:(lia) eq_refl) as [Hfail _].
    destruct (Hfail eq_refl) as (attempts & Hcall & _ & Hlen).
    eexists. split; [exact Hcall|].
    simpl. rewrite length_app. simpl. lia.
  - destruct (call_attempts_exact 5
      (facing [Failed TimedOut; ok "done"; ok "unused"] franka_online)
      new_session "POST" brakes_url None ltac:(lia) eq_refl) as [_ Hfirst].
    destruct (Hfirst 1%nat {| status_code := 200; text := "done" |}
      {| replies := [ok "unused"]; ticks := 2 |}
      ltac:(lia) eq_refl eq_refl eq_refl) as (attempts & Hcall & _ & Hlen).
    eexists. split; [exact Hcall|].
    simpl. rewrite length_app. simpl. lia.
Defined.

Lemma logout_clears_only_connected_witness :
  ∃ m', logout (facing [ok ""] franka_online) = Done true m'
        ∧ connected (self m') = false
        ∧ session (self m') = session franka_online.
Proof.
  destruct (logout_clears_only_connected
    (facing [ok ""] franka_online)
    (called "/admin/api/logout" "POST" None (facing [ok ""] franka_online))
    (Some (ok_response "")))
    as (Hrun & Hflag & Hsession & _); [vm_compute; reflexivity|].
  eexists. split; [exact Hrun|]. split; [exact Hflag|exact Hsession].
Defined.

Lemma is_control_token_active_compares_id_witness :
  (∃ m', is_control_token_active (facing [ok body_no_holder] franka_holding)
         = Done false m')
  ∧ (∃ m', is_control_token_active (facing [ok (body_holder "7")] franka_holding)
           = Done true m')
  ∧ (∃ m', is_control_token_active (facing [ok (body_holder "9")] franka_holding)
           = Done false m').
Proof.
  split; [|split].
  - destruct (is_control_token_active_compares_id
      (facing [ok body_no_holder] franka_holding)
      (called "/admin/api/control-token" "GET" None
         (facing [ok body_no_holder] franka_holding))
      (ok_response body_no_holder)
      (JObj [("activeToken", JNull)]) JNull) as [Hnone _];
      [vm_compute; reflexivity|vm_compute; reflexivity|vm_compute; reflexivity|].
    eexists. exact (Hnone eq_refl).
  - destruct (is_control_token_active_compares_id
      (facing [ok (body_holder "7")] franka_holding)
      (called "/admin/api/control-token" "GET" None
         (facing [ok (body_holder "7")] franka_holding))
      (ok_response (body_holder "7"))
      (JObj [("activeToken", JObj [("id", JNum 7)])])
      (JObj [("id", JNum 7)])) as [_ Hid];
      [vm_compute; reflexivity|vm_compute; reflexivity|vm_compute; reflexivity|].
    destruct (Hid (JNum 7) ltac:(discriminate) eq_refl) as [Hrun _].
    eexists. exact Hrun.
  - destruct (is_control_token_active_compares_id
      (facing [ok (body_holder "9")] franka_holding)
      (called "/admin/api/control-token" "GET" None
         (facing [ok (body_holder "9")] franka_holding))
      (ok_response (body_holder "9"))
      (JObj [("activeToken", JObj [("id", JNum 9)])])
      (JObj [("id", JNum 9)])) as [_ Hid];
      [vm_compute; reflexivity|vm_compute; reflexivity|vm_compute; reflexivity|].
    destruct (Hid (JNum 9) ltac:(discriminate) eq_refl) as [Hrun _].
    eexists. exact Hrun.
Defined.

Lemma acquire_standard_checks_once_witness :
  (∃ m', acquire_control_token 0 false
           (facing [ok body_grant; ok (body_holder "9")] franka_online)
         = Done false m'
         ∧ control_token (self m') = JStr "abc"
         ∧ control_token_id (self m') = JNum 7
         ∧ (session (self m') ≫= λ s, headers s !! "X-Control-Token")
             = Some (JStr "abc"))
  ∧ (∃ m', acquire_control_token 0 false
             (facing [ok body_grant; ok (body_holder "7")] franka_online)
           = Done true m').
Proof.
  split.
  - destruct (acquire_standard_checks_once 0
      (facing [ok body_grant; ok (body_holder "9")] franka_online)
      (called "/admin/api/control-token/request" "POST" requested_by_franka
         (facing [ok body_grant; ok (body_holder "9")] franka_online))
      (ok_response body_grant)
      (JObj [("token", JStr "abc"); ("id", JNum 7)]) (JStr "abc") (JNum 7))
      as (sess & held & Hsess & Hheld & _ & _ & _ & _ & _ & _ & Hcheck);
      [vm_compute; reflexivity|vm_compute; reflexivity
      |vm_compute; reflexivity|vm_compute; reflexivity|].
    injection Hsess as <-. subst held.
    destruct (Hcheck (ok_response (body_holder "9"))
      (called "/admin/api/control-token" "GET" None
         (granted_on [ok body_grant; ok (body_holder "9")]))
      (JObj [("activeToken", JObj [("id", JNum 9)])])
      (JObj [("id", JNum 9)]))
      as (Hself & _ & Hholder);
      [vm_compute; reflexivity|vm_compute; reflexivity|vm_compute; reflexivity|].
    destruct (Hholder (JNum 9) ltac:(discriminate) eq_refl) as [_ Hother].
    eexists. split; [exact (Hother eq_refl)|].
    rewrite Hself. repeat split; vm_compute; reflexivity.
  - destruct (acquire_standard_checks_once 0
      (facing [ok body_grant; ok (body_holder "7")] franka_online)
      (called "/admin/api/control-token/request" "POST" requested_by_franka
         (facing [ok body_grant; ok (body_holder "7")] franka_online))
      (ok_response body_grant)
      (JObj [("token", JStr "abc"); ("id", JNum 7)]) (JStr "abc") (JNum 7))
      as (sess & held & Hsess & Hheld & _ & _ & _ & _ & _ & _ & Hcheck);
      [vm_compute; reflexivity|vm_compute; reflexivity
      |vm_compute; reflexivity|vm_compute; reflexivity|].
    injection Hsess as <-. subst held.
    destruct (Hcheck (ok_response (body_holder "7"))
      (called "/admin/api/control-token" "GET" None
         (granted_on [ok body_grant; ok (body_holder "7")]))
      (JObj [("activeToken", JObj [("id", JNum 7)])])
      (JObj [("id", JNum 7)]))
      as (_ & _ & Hholder);
      [vm_compute; reflexivity|vm_compute; reflexivity|vm_compute; reflexivity|].
    destruct (Hholder (JNum 7) ltac:(discriminate) eq_refl) as [Hrun _].
    eexists. exact Hrun.
Defined.

Lemma acquire_failure_keeps_token_witness :
  (∃ m', acquire_control_token 1 true
           (facing [ok (body_safety "5")] franka_holding) = Done false m'
         ∧ control_token (self m') = JStr "abc")
  ∧ (∃ m', acquire_control_token 1 false (facing [] franka_holding)
           = Done false m'
         ∧ control_token (self m') = JStr "abc").
Proof.
  split.
  - destruct (acquire_failure_keeps_token 1 true
      (facing [ok (body_safety "5")] franka_holding)
      (called "/admin/api/safety" "GET" None
         (facing [ok (body_safety "5")] franka_holding))
      (called "/admin/api/control-token/request?force" "POST" requested_by_franka
         (called "/admin/api/safety" "GET" None
            (facing [ok (body_safety "5")] franka_holding)))
      None)
      as (Hrun & _ & Htok & _).
    + exists (ok_response (body_safety "5")),
        (JObj [("tokenForceTimeout", JNum 5)]), (JNum 5).
      split; [vm_compute; reflexivity|]. split; vm_compute; reflexivity.
    + vm_compute. reflexivity.
    + eexists. split; [exact Hrun|]. rewrite Htok. reflexivity.
  - destruct (acquire_failure_keeps_token 1 false
      (facing [] franka_holding) (facing [] franka_holding)
      (called "/admin/api/control-token/request" "POST" requested_by_franka
         (facing [] franka_holding))
      None)
      as (Hrun & _ & Htok & _).
    + reflexivity.
    + vm_compute. reflexivity.
    + eexists. split; [exact Hrun|]. rewrite Htok. reflexivity.
Defined.

Lemma forced_acquire_nonpositive_timeout_witness :
  ∃ m', acquire_control_token 1 true
          (facing [ok (body_safety "0"); ok body_grant; ok (body_holder "7")]
             franka_online) = Done false m'
        ∧ control_token (self m') = JStr "abc"
        ∧ replies (env (world m')) = [ok (body_holder "7")].
Proof.
  destruct (forced_acquire_nonpositive_timeout 1 0
    (facing [ok (body_safety "0"); ok body_grant; ok (body_holder "7")]
       franka_online)
    (called "/admin/api/safety" "GET" None
       (facing [ok (body_safety "0"); ok body_grant; ok (body_holder "7")]
          franka_online))
    (called "/admin/api/control-token/request?force" "POST" requested_by_franka
       (called "/admin/api/safety" "GET" None
          (facing [ok (body_safety "0"); ok body_grant; ok (body_holder "7")]
             franka_online)))
    (ok_response (body_safety "0")) (ok_response body_grant)
    (JObj [("tokenForceTimeout", JNum 0)])
    (JObj [("token", JStr "abc"); ("id", JNum 7)])
    (JNum 0) (JStr "abc") (JNum 7))
    as (sess & Hsess & Hrun).
  - exact scripted_clock_monotone.
  - vm_compute. reflexivity.
  - vm_compute. reflexivity.
  - vm_compute. reflexivity.
  - vm_compute. reflexivity.
  - apply Qle_refl.
  - vm_compute. reflexivity.
  - vm_compute. reflexivity.
  - vm_compute. reflexivity.
  - vm_compute. reflexivity.
  - lia.
  - eexists. split; [exact Hrun|]. split; vm_compute; reflexivity.
Defined.

Lemma read_system_version_sets_requirement_witness :
  (∃ m', read_system_version (facing [ok (quoted "4.2.0")] franka_online)
         = Done true m' ∧ control_token_req (self m') = true)
  ∧ (∃ m', read_system_version (facing [ok (quoted "4.1.9")] franka_online)
           = Done true m' ∧ control_token_req (self m') = false)
  ∧ (∃ m', read_system_version (facing [ok (quoted "4.2.1")] franka_online)
           = Done true m' ∧ control_token_req (self m') = true).
Proof.
  split; [|split].
  - destruct (read_system_version_sets_requirement
      (facing [ok (quoted "4.2.0")] franka_online)
      (called "/admin/api/system-version" "GET" None
         (facing [ok (quoted "4.2.0")] franka_online))
      (ok_response (quoted "4.2.0")) (release [4; 2; 0]%N) (release [4; 2; 0]%N))
      as (m' & Hrun & _ & _ & _ & _ & Hboundary);
      [vm_compute; reflexivity|vm_compute; reflexivity|vm_compute; reflexivity|].
    exists m'. split; [exact Hrun|]. apply Hboundary; vm_compute; reflexivity.
  - destruct (read_system_version_sets_requirement
      (facing [ok (quoted "4.1.9")] franka_online)
      (called "/admin/api/system-version" "GET" None
         (facing [ok (quoted "4.1.9")] franka_online))
      (ok_response (quoted "4.1.9")) (release [4; 1; 9]%N) (release [4; 2; 0]%N))
      as (m' & Hrun & _ & _ & _ & Hfresh & _);
      [vm_compute; reflexivity|vm_compute; reflexivity|vm_compute; reflexivity|].
    exists m'. split; [exact Hrun|]. rewrite Hfresh; reflexivity.
  - destruct (read_system_version_sets_requirement
      (facing [ok (quoted "4.2.1")] franka_online)
      (called "/admin/api/system-version" "GET" None
         (facing [ok (quoted "4.2.1")] franka_online))
      (ok_response (quoted "4.2.1")) (release [4; 2; 1]%N) (release [4; 2; 0]%N))
      as (m' & Hrun & _ & _ & _ & Hfresh & _);
      [vm_compute; reflexivity|vm_compute; reflexivity|vm_compute; reflexivity|].
    exists m'. split; [exact Hrun|]. rewrite Hfresh; reflexivity.
Defined.

(** ** More scenarios on the scripted server *)

#[local] Remove Hints fixture_json : typeclass_instances.
#[local] Existing Instance edge_json.
#[local] Existing Instance scripted_ros.

Lemma call_sends_nothing_witness :
  __call brakes_url "POST" None 5 (facing [ok "unseen"] franka)
    = Done (false, None) (facing [ok "unseen"] franka)
  ∧ __call brakes_url "POST" None (-3) (facing [ok "unseen"] franka_online)
      = Done (false, None) (facing [ok "unseen"] franka_online).
Proof.
  split; apply call_sends_nothing; [left; reflexivity|right; lia].
Defined.

Lemma login_stores_credential_witness :
  ∃ m', login 5 (facing [ok "cookie"] franka_online) = Done true m'
        ∧ connected (self m') = true.
Proof.
  destruct (login_stores_credential 5
    (facing [ok "cookie"] franka_online)
    (called "/admin/api/login" "POST" login_as_franka
       (facing [ok "cookie"] franka_online))
    (ok_response "cookie"))
    as (sess & _ & Hrun & _); [vm_compute; reflexivity|].
  eexists. split; [exact Hrun|reflexivity].
Defined.

Lemma false_leaves_connector_witness :
  self (called "/admin/api/logout" "POST" None (facing [] franka_online))
    = franka_online
  ∧ self (called "/admin/api/system-version" "GET" None (facing [] franka_online))
      = franka_online.
Proof.
  destruct (false_leaves_connector 0 (facing [] franka_online))
    as [Hop Hversion].
  split.
  - apply (Hop OpLogout _ eq_refl). vm_compute. reflexivity.
  - apply Hversion. vm_compute. reflexivity.
Defined.

Lemma connect_true_is_connected_witness :
  connected
    (self (after (connect 20)
             (facing [ok "cookie"; ok (quoted "4.2.1")] franka))) = true.
Proof.
  destruct (connect_true_is_connected 20
    (facing [ok "cookie"; ok (quoted "4.2.1")] franka)
    (after (connect 20) (facing [ok "cookie"; ok (quoted "4.2.1")] franka)))
    as (Hconnected & _); [vm_compute; reflexivity|].
  exact Hconnected.
Defined.

Lemma read_system_version_invalid_raises_witness :
  ∃ m', read_system_version (facing [ok (quoted "unknown")] franka_online)
        = Raised InvalidVersion m'
        ∧ version (self m') = Some "unknown"
        ∧ control_token_req (self m') = false.
Proof.
  pose proof (read_system_version_invalid_raises
    (facing [ok (quoted "unknown")] franka_online)
    (called "/admin/api/system-version" "GET" None
       (facing [ok (quoted "unknown")] franka_online))
    (ok_response (quoted "unknown"))) as Hrun.
  eexists. split; [apply Hrun; vm_compute; reflexivity|].
  split; vm_compute; reflexivity.
Defined.

Lemma read_system_version_records_first_line_witness :
  match read_system_version
          (facing [ok (quoted "4.3.1\nFranka")] franka_online) with
  | Done _ m' | Raised _ m' => version (self m') = Some "4.3.1"
  | OutOfFuel => False
  end.
Proof.
  apply (read_system_version_records_first_line
    (facing [ok (quoted "4.3.1\nFranka")] franka_online)
    (called "/admin/api/system-version" "GET" None
       (facing [ok (quoted "4.3.1\nFranka")] franka_online))
    (ok_response (quoted "4.3.1\nFranka")) "4.3.1" "\nFranka").
  - vm_compute. reflexivity.
  - reflexivity.
  - reflexivity.
  - reflexivity.
  - right. exists "Franka". reflexivity.
Defined.

Lemma operations_without_session_witness :
  acquire_control_token 1 true (facing [ok "unseen"] franka)
    = Done false (facing [ok "unseen"] franka)
  ∧ can_control (facing [ok "unseen"] franka)
    = Done true (facing [ok "unseen"] franka).
Proof.
  split.
  - exact (operations_without_session 1 (OpAcquireControlToken true)
             (facing [ok "unseen"] franka) eq_refl).
  - exact (operations_without_session 1 OpCanControl
             (facing [ok "unseen"] franka) eq_refl).
Defined.

Lemma is_control_token_active_missing_key_witness :
  ∃ m', is_control_token_active (facing [ok body_empty_object] franka_holding)
        = Raised KeyError m'.
Proof.
  destruct (is_control_token_active_missing_key
    (facing [ok body_empty_object] franka_holding)
    (called "/admin/api/control-token" "GET" None
       (facing [ok body_empty_object] franka_holding))
    (ok_response body_empty_object) []) as [Hrun _].
  - vm_compute. reflexivity.
  - vm_compute. reflexivity.
  - left. reflexivity.
  - eexists. exact Hrun.
Defined.

Lemma forced_acquire_needs_timeout_witness :
  match acquire_control_token 1 true (facing [] franka_online) with
  | Done b _ => b = false
  | _ => False
  end
  ∧ match acquire_control_token 1 true
            (facing [ok body_empty_object; ok body_grant] franka_online) with
    | Raised e _ => e = KeyError
    | _ => False
    end.
Proof.
  split.
  - destruct (forced_acquire_needs_timeout 1 (facing [] franka_online)
      (called "/admin/api/safety" "GET" None (facing [] franka_online))
      false None) as [_ Hrun].
    + vm_compute. reflexivity.
    + left. reflexivity.
    + destruct (acquire_control_token 1 true (facing [] franka_online));
        [tauto|destruct Hrun; discriminate|exact Hrun].
  - destruct (forced_acquire_needs_timeout 1
      (facing [ok body_empty_object; ok body_grant] franka_online)
      (called "/admin/api/safety" "GET" None
         (facing [ok body_empty_object; ok body_grant] franka_online))
      true (Some (ok_response body_empty_object))) as [_ Hrun].
    + vm_compute. reflexivity.
    + right. exists (ok_response body_empty_object), [].
      split; [reflexivity|]. split; vm_compute; reflexivity.
    + destruct (acquire_control_token 1 true
        (facing [ok body_empty_object; ok body_grant] franka_online));
        [destruct Hrun; discriminate|tauto|exact Hrun].
Defined.

Lemma forced_acquire_timeout_not_a_number_witness :
  ∃ m', acquire_control_token 1 true
          (facing [ok body_safety_text; ok body_grant; ok (body_holder "7")]
             franka_online) = Raised TypeError m'
        ∧ control_token (self m') = JStr "abc"
        ∧ replies (env (world m')) = [ok (body_holder "7")].
Proof.
  destruct (forced_acquire_timeout_not_a_number 1
    (facing [ok body_safety_text; ok body_grant; ok (body_holder "7")]
       franka_online)
    (called "/admin/api/safety" "GET" None
       (facing [ok body_safety_text; ok body_grant; ok (body_holder "7")]
          franka_online))
    (called "/admin/api/control-token/request?force" "POST" requested_by_franka
       (called "/admin/api/safety" "GET" None
          (facing [ok body_safety_text; ok body_grant; ok (body_holder "7")]
             franka_online)))
    (ok_response body_safety_text) (ok_response body_grant)
    (JObj [("tokenForceTimeout", JStr "soon")])
    (JObj [("token", JStr "abc"); ("id", JNum 7)])
    (JStr "soon") (JStr "abc") (JNum 7))
    as (sess & Hsess & Hrun).
  - vm_compute. reflexivity.
  - vm_compute. reflexivity.
  - vm_compute. reflexivity.
  - reflexivity.
  - vm_compute. reflexivity.
  - vm_compute. reflexivity.
  - vm_compute. reflexivity.
  - vm_compute. reflexivity.
  - lia.
  - eexists. split; [exact Hrun|]. split; vm_compute; reflexivity.
Defined.

Lemma acquire_without_id_half_stored_witness :
  ∃ m', acquire_control_token 0 false (facing [ok body_token_only] franka_holding)
        = Raised KeyError m'
        ∧ control_token (self m') = JStr "xyz"
        ∧ control_token_id (self m') = JNum 7
        ∧ session (self m') = session franka_holding.
Proof.
  pose proof (acquire_without_id_half_stored 0 false
    (facing [ok body_token_only] franka_holding)
    (facing [ok body_token_only] franka_holding)
    (called "/admin/api/control-token/request" "POST" requested_by_franka
       (facing [ok body_token_only] franka_holding))
    (ok_response body_token_only) [("token", JStr "xyz")] (JStr "xyz")) as Hrun.
  eexists. split.
  - apply Hrun; [reflexivity|vm_compute; reflexivity|vm_compute; reflexivity
                |reflexivity|reflexivity].
  - repeat split; reflexivity.
Defined.

Lemma arm_commands_pass_through_witness :
  ∃ b m', close_brakes (facing [ok ""] franka_online) = Done b m'
          ∧ self m' = franka_online.
Proof.
  destruct (arm_commands_pass_through 0 OpCloseBrakes
    (facing [ok ""] franka_online) eq_refl)
    as (b & m' & evs & Hrun & Hself & _).
  exists b, m'. split; [exact Hrun|exact Hself].
Defined.

Lemma main_without_connect_witness :
  ∃ nm', main 1 default_params (node_facing [ok "cookie"] None)
         = Returned true nm'
         ∧ node_world nm' = node_world (node_facing [ok "cookie"] None).
Proof.
  destruct (main_without_connect 1 default_params
    (node_facing [ok "cookie"] None)) as (lines & Hrun & _);
    [vm_compute; discriminate|].
  eexists. split; [exact Hrun|reflexivity].
Defined.

Lemma control_handlers_without_requirement_witness :
  success
    (match handle_acquire_control 1 true
             (node_facing [ok "unseen"] (Some franka_online)) with
     | Returned resp _ => resp
     | _ => {| success := false; message := "" |}
     end) = true.
Proof.
  destruct (control_handlers_without_requirement 1 true
    (node_facing [ok "unseen"] (Some franka_online)) franka_online
    eq_refl eq_refl) as [Hacquire _].
  rewrite Hacquire. reflexivity.
Defined.

Lemma release_handler_without_active_token_witness :
  ∃ nm', handle_release_control
           (node_facing [ok body_no_holder]
              (Some (set_control_token_req true franka_holding)))
         = Returned {| success := true;
                       message := "Robot does not have control authority" |} nm'.
Proof.
  pose proof (release_handler_without_active_token
    (node_facing [ok body_no_holder]
       (Some (set_control_token_req true franka_holding)))
    (set_control_token_req true franka_holding)
    (called "/admin/api/control-token" "GET" None
       (facing [ok body_no_holder] (set_control_token_req true franka_holding))))
    as Hrun.
  eexists. apply Hrun; [reflexivity|reflexivity|vm_compute; reflexivity].
Defined.

Lemma fci_handlers_need_active_token_witness :
  ∃ nm', handle_enable_fci (node_facing [ok body_no_holder] (Some franka_online))
         = Returned
             {| success := false;
                message :=
                  "Node does not have control authority, cannot activate fci" |}
             nm'.
Proof.
  destruct (fci_handlers_need_active_token
    (node_facing [ok body_no_holder] (Some franka_online)) franka_online
    (called "/admin/api/control-token" "GET" None
       (facing [ok body_no_holder] franka_online)))
    as (Henable & _); [reflexivity|vm_compute; reflexivity|].
  eexists. exact Henable.
Defined.

Lemma open_brakes_handler_only_opens_witness :
  ∃ resp nm', handle_open_brakes (node_facing [ok ""] (Some franka_online))
              = Returned resp nm'
              ∧ node nm' = node (node_facing [ok ""] (Some franka_online)).
Proof.
  destruct (open_brakes_handler_only_opens
    (node_facing [ok ""] (Some franka_online)) franka_online eq_refl)
    as (resp & nm' & evs & Hrun & Hnode & _).
  exists resp, nm'. split; [exact Hrun|exact Hnode].
Defined.
